(** * Telegram link actions (src/server/actions/telegram.ts)

    A shallow embedding of the server actions that link a signed-in user
    to a Telegram conversation: [checkUserTelegramSetup],
    [verifyTelegramSetupAction], [sendTelegramNotification] and
    [checkTelegramUsername], with the three gateway helpers they use.

    The module is a chain of awaited calls to collaborators (session
    check, user table, Telegram HTTP API).  Each action is embedded as a
    function from a store (user table + log of collaborator calls) to a
    completion (normal value or thrown value) and the store afterwards.
    What the collaborators answer during one invocation is fixed by a
    [World]. *)

From Stdlib Require Import String Ascii List Bool.
From stdpp Require Import base option strings list gmap.

Local Open Scope string_scope.
Local Open Scope list_scope.

(* ===================================================================== *)
(** ** JavaScript values at the types the module uses *)
(* ===================================================================== *)

(** A [string | null | undefined] is an [option string].  It is falsy
    when it is absent or the empty string. *)
Definition truthy (v : option string) : bool :=
  match v with
  | Some s => negb (String.eqb s "")
  | None => false
  end.

(** [a || b]: [a] when it is truthy, [b] otherwise. *)
Definition js_or (a b : option string) : option string :=
  if truthy a then a else b.

(** [a ?? b]: [a] unless it is null or undefined. *)
Definition nullish {A : Type} (a : option A) (b : A) : A :=
  match a with
  | Some x => x
  | None => b
  end.

(** [s.replaceAll(pattern, replacement)] for a one-character pattern.
    Strings are byte strings here; the only pattern the module uses is
    the ASCII character '@', whose byte never occurs inside a multi-byte
    character, so working byte by byte is the same as working on
    characters. *)
Fixpoint replaceAll (pattern : ascii) (replacement : string) (s : string) : string :=
  match s with
  | EmptyString => EmptyString
  | String c rest =>
      if Ascii.eqb c pattern
      then String.append replacement (replaceAll pattern replacement rest)
      else String c (replaceAll pattern replacement rest)
  end.

(** What a [throw] carries: an [Error] object with its message, or any
    other value. *)
Inductive thrown : Type :=
| ThrownError (message : string)
| ThrownOther.

(** [err instanceof Error ? err.message : fallback] *)
Definition message_or (err : thrown) (fallback : string) : string :=
  match err with
  | ThrownError m => m
  | ThrownOther => fallback
  end.

(** How an awaited call completes. *)
Inductive completion (A : Type) : Type :=
| Normal (a : A)
| Abrupt (e : thrown).
Arguments Normal {A} a.
Arguments Abrupt {A} e.

(* ===================================================================== *)
(** ** Telegram Bot API payloads, as far as the module reads them *)
(* ===================================================================== *)

(** The code reads the decoded JSON as [any].  The fields it reaches
    through [?.] ([message], [from], [username]) are optional here, the
    ones it reaches through a plain [.] ([chat], [id], [result]) are
    always present, which is also how the Bot API declares them.  The
    chat id is kept at the type the code declares for it, a string. *)
Module Telegram.

Record User := { username : option string }.
Record Chat := { id : string }.
Record Message := { from : option User; chat : Chat }.
Record Update := { message : option Message }.

(** Body of getMe: [data.result.username]. *)
Record BotUser := { bot_username : string }.
Record GetMe := { me_result : BotUser }.

(** Body of getUpdates: [data.result] is the list of updates. *)
Record GetUpdates := { result : list Update }.

End Telegram.

(** An HTTP response: [response.ok] and what [response.json()] gives. *)
Record Response (A : Type) := { ok : bool; json : completion A }.
Arguments ok {A} _.
Arguments json {A} _.

(** [fetch] either rejects (transport failure) or resolves to a response. *)
Inductive FetchOutcome (A : Type) : Type :=
| Rejected (e : thrown)
| Resolved (r : Response A).
Arguments Rejected {A} e.
Arguments Resolved {A} r.

(** The three requests the module sends. [SendMessage] carries the JSON
    body [{chat_id, text}]. *)
Inductive Request : Type :=
| GetBotInfo
| GetUpdates
| SendMessage (chat_id : option string) (text : string).

(* ===================================================================== *)
(** ** Store, collaborators and the action monad *)
(* ===================================================================== *)

(** Calls made to collaborators, in the order they are made. *)
Inductive Event : Type :=
| EvVerifyUser
| EvFetch (rq : Request)
| EvDbGet (userId : string)
| EvDbUpdate (userId telegramId : string).

Definition is_gateway_call (e : Event) : bool :=
  match e with
  | EvFetch _ => true
  | _ => false
  end.

Definition is_persistence_call (e : Event) : bool :=
  match e with
  | EvDbGet _ | EvDbUpdate _ _ => true
  | _ => false
  end.

Definition is_db_update (e : Event) : bool :=
  match e with
  | EvDbUpdate _ _ => true
  | _ => false
  end.

(** The user table (user id to stored Telegram handle) and the log. *)
Record Store := { db : gmap string string; log : list Event }.

(** Configuration and the collaborators' answers during one invocation. *)
Record World := {
  TELEGRAM_BOT_TOKEN : option string;
  TELEGRAM_BOT_USERNAME : option string;
  (** [verifyUser()] followed by [?.data?.data?.id] *)
  session : completion (option string);
  getMe : FetchOutcome Telegram.GetMe;
  getUpdates : FetchOutcome Telegram.GetUpdates;
  sendMessage : option string -> string -> FetchOutcome unit;
  (** an error raised by the user table on read / on write, if any *)
  dbGet_error : option thrown;
  dbUpdate_error : option thrown
}.

Definition Async (A : Type) : Type := Store -> completion A * Store.

Definition ret {A : Type} (a : A) : Async A :=
  fun s => (Normal a, s).

Definition throw {A : Type} (e : thrown) : Async A :=
  fun s => (Abrupt e, s).

Definition bind {A B : Type} (m : Async A) (k : A -> Async B) : Async B :=
  fun s =>
    match m s with
    | (Normal a, s') => k a s'
    | (Abrupt e, s') => (Abrupt e, s')
    end.

Definition try_catch {A : Type} (body : Async A) (handler : thrown -> Async A) : Async A :=
  fun s =>
    match body s with
    | (Normal a, s') => (Normal a, s')
    | (Abrupt e, s') => handler e s'
    end.

Definition complete {A : Type} (c : completion A) : Async A :=
  fun s => (c, s).

(** The store after further collaborator calls, the table untouched. *)
Definition record (s : Store) (calls : list Event) : Store :=
  {| db := db s; log := log s ++ calls |}.

(** The store after a write to the user table. *)
Definition write (s : Store) (userId telegramId : string) : Store :=
  {| db := <[userId := telegramId]> (db s); log := log s |}.

Definition emit (e : Event) : Async unit :=
  fun s => (Normal tt, record s [e]).

Notation "'let!' x ':=' m 'in' k" := (bind m (fun x => k))
  (at level 10, x pattern, m at level 100, k at level 200).

(** [await fetch(url, init)] *)
Definition fetch {A : Type} (rq : Request) (o : FetchOutcome A) : Async (Response A) :=
  let! _ := emit (EvFetch rq) in
  match o with
  | Rejected e => throw e
  | Resolved r => ret r
  end.

(* ===================================================================== *)
(** ** Result shapes *)
(* ===================================================================== *)

Module CheckUserSetupResult.
Record t := mk {
  success : bool;
  error : option string;
  userId : option string;
  username : option string;
  chatId : option string;
  botId : option string
}.
End CheckUserSetupResult.

Module TelegramActionData.
Record t := mk {
  success : bool;
  error : option string;
  botId : option string;
  username : option string
}.
End TelegramActionData.

(** [ActionResponse<T>] of lib/safe-action, at the fields this module
    fills in. *)
Module ActionResponse.
Record t (T : Type) := mk {
  success : bool;
  error : option string;
  data : option T
}.
Arguments mk {T} _ _ _.
Arguments success {T} _.
Arguments error {T} _.
Arguments data {T} _.
End ActionResponse.

(** Validated input of the two safe actions. *)
Record VerifyInput := { vi_username : option string }.
Record NotifyInput := { ni_username : option string; ni_text : string }.

Definition MISSING_USERNAME_ERROR : string := "No saved Telegram username found".
Definition BOT_NOT_STARTED_ERROR : string := "Bot not started yet".
Definition UNAUTHORIZED : string := "UNAUTHORIZED".

(* ===================================================================== *)
(** ** The module *)
(* ===================================================================== *)

Section Actions.

Variable w : World.

(** Modelled from the spec: [verifyUser] of ./user is not part of the
    sources.  "AuthProvider: returns the currently authenticated user's
    identifier or signals absence of a session."  The call is logged and
    completes as the world says; the value is the user id the caller
    reads through [authResult?.data?.data?.id]. *)
Definition verifyUser : Async (option string) :=
  let! _ := emit EvVerifyUser in
  complete (session w).

(** Modelled from the spec: [dbGetUserTelegramId] of server/db/queries is
    not part of the sources.  "Persistence contract: get(userId) ->
    handle|absent".  The read is logged; it raises the world's read
    error if there is one. *)
Definition dbGetUserTelegramId (userId : string) : Async (option string) :=
  let! _ := emit (EvDbGet userId) in
  match dbGet_error w with
  | Some e => throw e
  | None => fun s => (Normal (db s !! userId), s)
  end.

(** Modelled from the spec: [dbUpdateUserTelegramId] of server/db/queries
    is not part of the sources.  "Persistence contract: set(userId,
    handle) -> void".  The write is logged; it raises the world's write
    error, leaving the table as it was, if there is one. *)
Definition dbUpdateUserTelegramId (userId telegramId : string) : Async unit :=
  let! _ := emit (EvDbUpdate userId telegramId) in
  match dbUpdate_error w with
  | Some e => throw e
  | None => fun s => (Normal tt, write s userId telegramId)
  end.

Definition getBotUsername : Async string :=
  let! response := fetch GetBotInfo (getMe w) in
  if negb (ok response) then throw (ThrownError "Failed to retrieve bot info") else
  let! data := complete (json response) in
  ret (Telegram.bot_username (Telegram.me_result data)).

(** [msg?.message?.from?.username] *)
Definition sender_username (msg : Telegram.Update) : option string :=
  match Telegram.message msg with
  | None => None
  | Some m =>
      match Telegram.from m with
      | None => None
      | Some u => Telegram.username u
      end
  end.

(** [msg?.message?.from?.username === username] *)
Definition from_username (username : string) (msg : Telegram.Update) : bool :=
  match sender_username msg with
  | Some u => String.eqb u username
  | None => false
  end.

(** [chat.message.chat.id]; reading [.chat] of an absent message is a
    TypeError. *)
Definition chat_id_of (chat : Telegram.Update) : completion string :=
  match Telegram.message chat with
  | Some m => Normal (Telegram.id (Telegram.chat m))
  | None => Abrupt (ThrownError "Cannot read properties of undefined (reading 'chat')")
  end.

Definition getChatIdByUsername (username : string) : Async (option string) :=
  let! response := fetch GetUpdates (getUpdates w) in
  if negb (ok response) then throw (ThrownError "Failed to retrieve bot updates") else
  let! data := complete (json response) in
  let chat := List.find (from_username username) (Telegram.result data) in
  match chat with
  | Some c => let! i := complete (chat_id_of c) in ret (Some i)
  | None => ret None
  end.

Definition sendTelegramMessage (chatId : option string) (text : string) : Async unit :=
  let! response := fetch (SendMessage chatId text) (sendMessage w chatId text) in
  if negb (ok response) then throw (ThrownError "Failed to send Telegram message") else
  ret tt.

Definition checkUserTelegramSetup (username : option string)
  : Async CheckUserSetupResult.t :=
  let! authResult := verifyUser in
  let userId := authResult in
  if negb (truthy userId)
  then ret (CheckUserSetupResult.mk false (Some UNAUTHORIZED) None None None None)
  else
  let uid := nullish userId "" in
  let! botId :=
    match TELEGRAM_BOT_USERNAME w with
    | Some b => ret b
    | None => getBotUsername
    end in
  let! dbUsername := dbGetUserTelegramId uid in
  let finalUsername := js_or username dbUsername in
  if negb (truthy finalUsername)
  then ret (CheckUserSetupResult.mk false (Some MISSING_USERNAME_ERROR)
              userId None None (Some botId))
  else
  let sanitizedUsername := replaceAll "@" "" (nullish finalUsername "") in
  let! chatId := getChatIdByUsername sanitizedUsername in
  if negb (truthy chatId)
  then ret (CheckUserSetupResult.mk false (Some BOT_NOT_STARTED_ERROR)
              userId None None (Some botId))
  else
  let! _ :=
    if negb (truthy dbUsername)
       || negb (bool_decide (dbUsername = Some sanitizedUsername))
    then dbUpdateUserTelegramId uid sanitizedUsername
    else ret tt in
  ret (CheckUserSetupResult.mk true None userId (Some sanitizedUsername)
         chatId (Some botId)).

(** The handler passed to [actionClient.schema(...).action(...)]; schema
    validation and dispatch belong to the action framework. *)
Definition verifyTelegramSetupAction (parsedInput : VerifyInput)
  : Async (ActionResponse.t TelegramActionData.t) :=
  try_catch
    (let! setup := checkUserTelegramSetup (vi_username parsedInput) in
     if negb (CheckUserSetupResult.success setup)
     then ret (ActionResponse.mk false (CheckUserSetupResult.error setup)
                 (Some (TelegramActionData.mk false (CheckUserSetupResult.error setup)
                          (CheckUserSetupResult.botId setup) None)))
     else ret (ActionResponse.mk true None
                 (Some (TelegramActionData.mk true None None None))))
    (fun err =>
       let msg := message_or err "Verification failed" in
       ret (ActionResponse.mk false (Some msg)
              (Some (TelegramActionData.mk false (Some msg) None None)))).

Definition sendTelegramNotification (parsedInput : NotifyInput)
  : Async (ActionResponse.t TelegramActionData.t) :=
  if negb (truthy (TELEGRAM_BOT_TOKEN w))
  then ret (ActionResponse.mk false (Some "Telegram bot token not set")
              (Some (TelegramActionData.mk false None None None)))
  else
  try_catch
    (let! setup := checkUserTelegramSetup (ni_username parsedInput) in
     if negb (CheckUserSetupResult.success setup)
     then ret (ActionResponse.mk false (CheckUserSetupResult.error setup)
                 (Some (TelegramActionData.mk false (CheckUserSetupResult.error setup)
                          (CheckUserSetupResult.botId setup) None)))
     else
     let! _ := sendTelegramMessage (CheckUserSetupResult.chatId setup)
                 (ni_text parsedInput) in
     ret (ActionResponse.mk true None
            (Some (TelegramActionData.mk true None
                     (CheckUserSetupResult.botId setup) None))))
    (fun err =>
       let msg := message_or err "Failed to send notification" in
       ret (ActionResponse.mk false (Some msg)
              (Some (TelegramActionData.mk false (Some msg) None None)))).

Definition checkTelegramUsername : Async TelegramActionData.t :=
  let! authResult := verifyUser in
  let userId := authResult in
  if negb (truthy userId)
  then ret (TelegramActionData.mk false (Some UNAUTHORIZED) None None)
  else
  let! username := dbGetUserTelegramId (nullish userId "") in
  if negb (truthy username)
  then ret (TelegramActionData.mk false (Some MISSING_USERNAME_ERROR) None None)
  else ret (TelegramActionData.mk true None None username).

End Actions.

(* ===================================================================== *)
(** ** Vocabulary of the statements *)
(* ===================================================================== *)

(** The calls an action adds to the log. *)
Definition new_events (s s' : Store) : list Event :=
  drop (length (log s)) (log s').

Definition no_db_update (calls : list Event) : Prop :=
  Forall (fun e => is_db_update e = false) calls.

Definition no_gateway_no_persistence (calls : list Event) : Prop :=
  Forall (fun e => is_gateway_call e = false /\ is_persistence_call e = false) calls.

(** The caller has a session for user [uid]. *)
Definition authenticated (w : World) (uid : string) : Prop :=
  session w = Normal (Some uid) /\ uid <> "".

(** The session check answers, and there is no user id in the answer. *)
Definition unauthenticated (w : World) : Prop :=
  exists o, session w = Normal o /\ truthy o = false.

(** What an awaited [fetch] followed by the [response.ok] check and
    [response.json()] yields. *)
Definition received {A : Type} (o : FetchOutcome A) (failure : string) : completion A :=
  match o with
  | Rejected e => Abrupt e
  | Resolved r => if ok r then json r else Abrupt (ThrownError failure)
  end.

(** [TELEGRAM_BOT_USERNAME ?? (await getBotUsername())]: its value and
    the calls it makes. *)
Definition botIdentity (w : World) : completion string :=
  match TELEGRAM_BOT_USERNAME w with
  | Some b => Normal b
  | None =>
      match received (getMe w) "Failed to retrieve bot info" with
      | Normal data => Normal (Telegram.bot_username (Telegram.me_result data))
      | Abrupt e => Abrupt e
      end
  end.

Definition bot_calls (w : World) : list Event :=
  match TELEGRAM_BOT_USERNAME w with
  | Some _ => []
  | None => [EvFetch GetBotInfo]
  end.

(** The gateway answers the updates request with status [okb] and the
    update list [us]. *)
Definition updates_response (w : World) (okb : bool) (us : list Telegram.Update) : Prop :=
  getUpdates w =
    Resolved {| ok := okb; json := Normal {| Telegram.result := us |} |}.

(** The scan of the update list: [find] and the read of the chat id. *)
Definition scan (username : string) (us : list Telegram.Update) : completion (option string) :=
  match List.find (from_username username) us with
  | Some c =>
      match chat_id_of c with
      | Normal i => Normal (Some i)
      | Abrupt e => Abrupt e
      end
  | None => Normal None
  end.

(** The value of [await getChatIdByUsername(username)]. *)
Definition chat_lookup (w : World) (username : string) : completion (option string) :=
  match received (getUpdates w) "Failed to retrieve bot updates" with
  | Normal data => scan username (Telegram.result data)
  | Abrupt e => Abrupt e
  end.

(** The calls of a run of [checkUserTelegramSetup] that reaches the
    gateway scan. *)
Definition setup_calls (w : World) (uid : string) : list Event :=
  EvVerifyUser :: bot_calls w ++ [EvDbGet uid; EvFetch GetUpdates].

(** A failing action result carries a message. *)
Definition carries_message (r : ActionResponse.t TelegramActionData.t) : Prop :=
  ActionResponse.success r = false ->
  exists msg, ActionResponse.error r = Some msg.

(** The result the two safe actions build from a caught exception. *)
Definition caught (err : thrown) (fallback : string) : ActionResponse.t TelegramActionData.t :=
  ActionResponse.mk false (Some (message_or err fallback))
    (Some (TelegramActionData.mk false (Some (message_or err fallback)) None None)).

(** The result the two safe actions build from a failed setup check. *)
Definition forwarded (setup : CheckUserSetupResult.t) : ActionResponse.t TelegramActionData.t :=
  ActionResponse.mk false (CheckUserSetupResult.error setup)
    (Some (TelegramActionData.mk false (CheckUserSetupResult.error setup)
             (CheckUserSetupResult.botId setup) None)).

(** What [sendTelegramNotification] returns without a bot token. *)
Definition token_not_set : ActionResponse.t TelegramActionData.t :=
  ActionResponse.mk false (Some "Telegram bot token not set")
    (Some (TelegramActionData.mk false None None None)).

(** The effective handle in the specification's words:
    [handleOverride ?? storedHandle].  Kept apart from [js_or], which is
    what the code computes. *)
Definition effectiveHandle_spec (handleOverride storedHandle : option string)
  : option string :=
  match handleOverride with
  | Some h => Some h
  | None => storedHandle
  end.

(** A string of [n] at-signs. *)
Fixpoint at_signs (n : nat) : string :=
  match n with
  | O => ""
  | S k => String "@" (at_signs k)
  end.

(** *** Sample worlds *)

Definition message_from (u chatId : string) : Telegram.Update :=
  {| Telegram.message :=
       Some {| Telegram.from := Some {| Telegram.username := Some u |};
               Telegram.chat := {| Telegram.id := chatId |} |} |}.

(** A world with a configured bot name, a working user table and a
    gateway that accepts every message. *)
Definition sample_world (token : option string) (sess : completion (option string))
    (updates : FetchOutcome Telegram.GetUpdates) : World :=
  {| TELEGRAM_BOT_TOKEN := token;
     TELEGRAM_BOT_USERNAME := Some "aguera_bot";
     session := sess;
     getMe := Rejected (ThrownError "fetch failed");
     getUpdates := updates;
     sendMessage := fun _ _ => Resolved {| ok := true; json := Normal tt |};
     dbGet_error := None;
     dbUpdate_error := None |}.

Definition updates_ok (us : list Telegram.Update) : FetchOutcome Telegram.GetUpdates :=
  Resolved {| ok := true; json := Normal {| Telegram.result := us |} |}.

Definition updates_down : FetchOutcome Telegram.GetUpdates :=
  Resolved {| ok := false; json := Abrupt (ThrownError "Unexpected end of JSON input") |}.

Definition bob_world : World :=
  sample_world (Some "token") (Normal (Some "user-1")) (updates_ok [message_from "bob" "123"]).

Definition alice_world : World :=
  sample_world (Some "token") (Normal (Some "user-1")) (updates_ok [message_from "alice" "77"]).


(** Nobody is signed in and no bot token is configured. *)
Definition anonymous_world_without_token : World :=
  sample_world None (Normal None) (updates_ok []).

Definition stored (uid h : string) : Store :=
  {| db := {[ uid := h ]}; log := [] |}.

Definition empty_store : Store := {| db := ∅; log := [] |}.

(* ===================================================================== *)
(** ** Runs of the collaborator calls *)
(* ===================================================================== *)

(** *** Vocabulary of the further properties *)

(** [s.includes('@')] *)
Fixpoint has_at (s : string) : bool :=
  match s with
  | EmptyString => false
  | String c rest => Ascii.eqb c "@" || has_at rest
  end.

(** The user id the session check answers with, if any. *)
Definition session_user (w : World) : string :=
  match session w with
  | Normal (Some uid) => uid
  | _ => ""
  end.

(** The handle [checkUserTelegramSetup] looks for: the effective handle
    with its at-signs removed. *)
Definition sanitized_handle (username dbUsername : option string) : string :=
  replaceAll "@" "" (nullish (js_or username dbUsername) "").

(** All the calls of a run of [checkUserTelegramSetup] that goes as far
    as the write, in the order they are made. *)
Definition full_calls (w : World) (uid h : string) : list Event :=
  setup_calls w uid ++ [EvDbUpdate uid h].

Definition is_send_message (e : Event) : bool :=
  match e with
  | EvFetch (SendMessage _ _) => true
  | _ => false
  end.

(** No bot name is configured and the gateway refuses the identity
    request. *)
Definition unnamed_bot_world : World :=
  {| TELEGRAM_BOT_TOKEN := Some "token";
     TELEGRAM_BOT_USERNAME := None;
     session := Normal (Some "user-1");
     getMe := Resolved {| ok := false; json := Abrupt (ThrownError "Unexpected token") |};
     getUpdates := updates_ok [message_from "bob" "123"];
     sendMessage := fun _ _ => Resolved {| ok := true; json := Normal tt |};
     dbGet_error := None;
     dbUpdate_error := None |}.

(** The gateway refuses every message. *)
Definition refusing_world : World :=
  {| TELEGRAM_BOT_TOKEN := Some "token";
     TELEGRAM_BOT_USERNAME := Some "aguera_bot";
     session := Normal (Some "user-1");
     getMe := Rejected (ThrownError "fetch failed");
     getUpdates := updates_ok [message_from "bob" "123"];
     sendMessage := fun _ _ => Resolved {| ok := false; json := Normal tt |};
     dbGet_error := None;
     dbUpdate_error := None |}.

Lemma truthy_Some (h : string) : truthy (Some h) = true <-> h <> "".
Proof.
  unfold truthy. rewrite negb_true_iff.
  split; intros H.
  - intros ->. discriminate H.
  - destruct (String.eqb_spec h ""); [contradiction | reflexivity].
Qed.

Lemma truthy_is_Some (v : option string) :
  truthy v = true -> exists h, v = Some h /\ h <> "".
Proof.
  destruct v as [h|]; [|discriminate].
  intros H. exists h. split; [reflexivity | by apply truthy_Some].
Qed.

Lemma record_nil (s : Store) : record s [] = s.
Proof. destruct s as [d l]. unfold record. simpl. by rewrite app_nil_r. Qed.

Lemma record_record (s : Store) (a b : list Event) :
  record (record s a) b = record s (a ++ b).
Proof. unfold record. simpl. by rewrite app_assoc. Qed.

Lemma db_record (s : Store) (calls : list Event) : db (record s calls) = db s.
Proof. reflexivity. Qed.

Lemma new_events_record (s : Store) (calls : list Event) :
  new_events s (record s calls) = calls.
Proof. unfold new_events, record. simpl. by rewrite drop_app_length. Qed.

Lemma new_events_same (s : Store) : new_events s s = [].
Proof. unfold new_events. apply drop_all. Qed.

Lemma new_events_write (s : Store) (calls : list Event) (u t : string) :
  new_events s (write (record s calls) u t) = calls.
Proof. unfold new_events, write, record. simpl. by rewrite drop_app_length. Qed.

Section Runs.

Variable w : World.

Lemma verifyUser_run (s : Store) :
  verifyUser w s = (session w, record s [EvVerifyUser]).
Proof. reflexivity. Qed.

Lemma dbGet_run (uid : string) (s : Store) :
  dbGetUserTelegramId w uid s =
    (match dbGet_error w with
     | Some e => Abrupt e
     | None => Normal (db s !! uid)
     end, record s [EvDbGet uid]).
Proof.
  unfold dbGetUserTelegramId, bind, emit, throw.
  destruct (dbGet_error w); reflexivity.
Qed.

Lemma dbUpdate_run (uid h : string) (s : Store) :
  dbUpdateUserTelegramId w uid h s =
    match dbUpdate_error w with
    | Some e => (Abrupt e, record s [EvDbUpdate uid h])
    | None => (Normal tt, write (record s [EvDbUpdate uid h]) uid h)
    end.
Proof.
  unfold dbUpdateUserTelegramId, bind, emit, throw.
  destruct (dbUpdate_error w); reflexivity.
Qed.

Lemma fetch_run {A : Type} (rq : Request) (o : FetchOutcome A) (s : Store) :
  fetch rq o s =
    (match o with
     | Rejected e => Abrupt e
     | Resolved r => Normal r
     end, record s [EvFetch rq]).
Proof. unfold fetch, bind, emit, throw, ret. destruct o; reflexivity. Qed.

Lemma botIdentity_run (s : Store) :
  match TELEGRAM_BOT_USERNAME w with
  | Some b => ret b
  | None => getBotUsername w
  end s = (botIdentity w, record s (bot_calls w)).
Proof.
  unfold botIdentity, bot_calls, getBotUsername, received, bind.
  destruct (TELEGRAM_BOT_USERNAME w) as [b|].
  - unfold ret. by rewrite record_nil.
  - rewrite fetch_run.
    destruct (getMe w) as [e|[okb body]]; simpl; [reflexivity|].
    destruct okb; simpl; [|reflexivity].
    unfold complete. destruct body; reflexivity.
Qed.

Lemma getChatIdByUsername_run (username : string) (s : Store) :
  getChatIdByUsername w username s =
    (chat_lookup w username, record s [EvFetch GetUpdates]).
Proof.
  unfold getChatIdByUsername, chat_lookup, received, scan, bind. rewrite fetch_run.
  destruct (getUpdates w) as [e|[okb body]]; simpl; [reflexivity|].
  destruct okb; simpl; [|reflexivity].
  unfold complete. destruct body as [data|e]; [|reflexivity].
  destruct (find (from_username username) (Telegram.result data)) as [c|];
    [|reflexivity].
  destruct (chat_id_of c); reflexivity.
Qed.

Lemma sendTelegramMessage_run (chatId : option string) (text : string) (s : Store) :
  sendTelegramMessage w chatId text s =
    (match sendMessage w chatId text with
     | Rejected e => Abrupt e
     | Resolved r =>
         if ok r then Normal tt
         else Abrupt (ThrownError "Failed to send Telegram message")
     end, record s [EvFetch (SendMessage chatId text)]).
Proof.
  unfold sendTelegramMessage, bind. rewrite fetch_run.
  destruct (sendMessage w chatId text) as [e|[okb body]]; simpl; [reflexivity|].
  destruct okb; reflexivity.
Qed.

End Runs.

(* ===================================================================== *)
(** ** Runs of the actions *)
(* ===================================================================== *)

Ltac split_run H :=
  cbv zeta in H;
  repeat
    match type of H with
    | context [match ?x with _ => _ end] => destruct x eqn:?
    end.

(** The run of [checkUserTelegramSetup], call by call: where it stops,
    what it returns or throws there, and the store it leaves. *)
Lemma checkUserTelegramSetup_run (w : World) (username : option string) (s : Store) :
  checkUserTelegramSetup w username s =
    match session w with
    | Abrupt e => (Abrupt e, record s [EvVerifyUser])
    | Normal userId =>
        if truthy userId then
          let uid := nullish userId "" in
          match botIdentity w with
          | Abrupt e => (Abrupt e, record s (EvVerifyUser :: bot_calls w))
          | Normal botId =>
              match dbGet_error w with
              | Some e =>
                  (Abrupt e, record s (EvVerifyUser :: bot_calls w ++ [EvDbGet uid]))
              | None =>
                  let dbUsername := db s !! uid in
                  let finalUsername := js_or username dbUsername in
                  if truthy finalUsername then
                    let sanitized := replaceAll "@" "" (nullish finalUsername "") in
                    match chat_lookup w sanitized with
                    | Abrupt e => (Abrupt e, record s (setup_calls w uid))
                    | Normal chatId =>
                        if truthy chatId then
                          let done :=
                            CheckUserSetupResult.mk true None userId (Some sanitized)
                              chatId (Some botId) in
                          if negb (truthy dbUsername)
                             || negb (bool_decide (dbUsername = Some sanitized))
                          then
                            let calls := setup_calls w uid ++ [EvDbUpdate uid sanitized] in
                            match dbUpdate_error w with
                            | Some e => (Abrupt e, record s calls)
                            | None => (Normal done, write (record s calls) uid sanitized)
                            end
                          else (Normal done, record s (setup_calls w uid))
                        else
                          (Normal (CheckUserSetupResult.mk false (Some BOT_NOT_STARTED_ERROR)
                                     userId None None (Some botId)),
                           record s (setup_calls w uid))
                    end
                  else
                    (Normal (CheckUserSetupResult.mk false (Some MISSING_USERNAME_ERROR)
                               userId None None (Some botId)),
                     record s (EvVerifyUser :: bot_calls w ++ [EvDbGet uid]))
              end
          end
        else
          (Normal (CheckUserSetupResult.mk false (Some UNAUTHORIZED) None None None None),
           record s [EvVerifyUser])
    end.
Proof.
  unfold checkUserTelegramSetup, bind, setup_calls.
  rewrite verifyUser_run.
  destruct (session w) as [userId|e]; [|reflexivity].
  destruct (truthy userId); simpl; [|reflexivity].
  rewrite botIdentity_run.
  rewrite record_record.
  destruct (botIdentity w) as [botId|e]; [|reflexivity].
  rewrite dbGet_run, record_record.
  destruct (dbGet_error w) as [e|]; [reflexivity|].
  rewrite !db_record.
  destruct (truthy (js_or username _)); simpl; [|reflexivity].
  rewrite getChatIdByUsername_run, record_record.
  replace ((EvVerifyUser :: bot_calls w ++ [EvDbGet (nullish userId "")]) ++
           [EvFetch GetUpdates])
    with (EvVerifyUser :: bot_calls w ++ [EvDbGet (nullish userId ""); EvFetch GetUpdates])
    by (simpl; by rewrite <- app_assoc).
  destruct (chat_lookup w _) as [chatId|e]; [|reflexivity].
  destruct (truthy chatId); simpl; [|reflexivity].
  destruct (negb (truthy (db s !! nullish userId "")) || _); simpl; [|reflexivity].
  rewrite dbUpdate_run, record_record.
  destruct (dbUpdate_error w); reflexivity.
Qed.

(** A failure returned by [checkUserTelegramSetup] names its error. *)
Lemma checkUserTelegramSetup_failure_message
    (w : World) (username : option string) (s s' : Store) (r : CheckUserSetupResult.t) :
  checkUserTelegramSetup w username s = (Normal r, s') ->
  CheckUserSetupResult.success r = false ->
  exists msg, CheckUserSetupResult.error r = Some msg.
Proof.
  rewrite checkUserTelegramSetup_run. intros H Hfail.
  split_run H; simplify_eq; simpl in *; try discriminate; eauto.
Qed.

Lemma verifyTelegramSetupAction_run (w : World) (i : VerifyInput) (s : Store) :
  verifyTelegramSetupAction w i s =
    match checkUserTelegramSetup w (vi_username i) s with
    | (Normal setup, s') =>
        (Normal (if CheckUserSetupResult.success setup
                 then ActionResponse.mk true None
                        (Some (TelegramActionData.mk true None None None))
                 else forwarded setup), s')
    | (Abrupt err, s') => (Normal (caught err "Verification failed"), s')
    end.
Proof.
  unfold verifyTelegramSetupAction, try_catch, bind.
  destruct (checkUserTelegramSetup w (vi_username i) s) as [[setup|err] s'];
    [|reflexivity].
  destruct (CheckUserSetupResult.success setup); reflexivity.
Qed.

Lemma sendTelegramNotification_run (w : World) (i : NotifyInput) (s : Store) :
  sendTelegramNotification w i s =
    if truthy (TELEGRAM_BOT_TOKEN w) then
      match checkUserTelegramSetup w (ni_username i) s with
      | (Normal setup, s') =>
          if CheckUserSetupResult.success setup then
            let chatId := CheckUserSetupResult.chatId setup in
            let s'' := record s' [EvFetch (SendMessage chatId (ni_text i))] in
            match sendMessage w chatId (ni_text i) with
            | Rejected err => (Normal (caught err "Failed to send notification"), s'')
            | Resolved r =>
                if ok r
                then (Normal (ActionResponse.mk true None
                                (Some (TelegramActionData.mk true None
                                         (CheckUserSetupResult.botId setup) None))), s'')
                else (Normal (caught (ThrownError "Failed to send Telegram message")
                                "Failed to send notification"), s'')
            end
          else (Normal (forwarded setup), s')
      | (Abrupt err, s') => (Normal (caught err "Failed to send notification"), s')
      end
    else (Normal token_not_set, s).
Proof.
  unfold sendTelegramNotification, try_catch, bind.
  destruct (truthy (TELEGRAM_BOT_TOKEN w)); simpl; [|reflexivity].
  destruct (checkUserTelegramSetup w (ni_username i) s) as [[setup|err] s'];
    [|reflexivity].
  destruct (CheckUserSetupResult.success setup); simpl; [|reflexivity].
  rewrite sendTelegramMessage_run.
  destruct (sendMessage w _ _) as [err|[okb body]]; [reflexivity|].
  destruct okb; reflexivity.
Qed.

Lemma checkTelegramUsername_run (w : World) (s : Store) :
  checkTelegramUsername w s =
    match session w with
    | Abrupt e => (Abrupt e, record s [EvVerifyUser])
    | Normal userId =>
        if truthy userId then
          let uid := nullish userId "" in
          let s' := record s [EvVerifyUser; EvDbGet uid] in
          match dbGet_error w with
          | Some e => (Abrupt e, s')
          | None =>
              if truthy (db s !! uid)
              then (Normal (TelegramActionData.mk true None None (db s !! uid)), s')
              else (Normal (TelegramActionData.mk false (Some MISSING_USERNAME_ERROR)
                              None None), s')
          end
        else (Normal (TelegramActionData.mk false (Some UNAUTHORIZED) None None),
              record s [EvVerifyUser])
    end.
Proof.
  unfold checkTelegramUsername, bind. rewrite verifyUser_run.
  destruct (session w) as [userId|e]; [|reflexivity].
  destruct (truthy userId); simpl; [|reflexivity].
  rewrite dbGet_run, record_record. simpl.
  destruct (dbGet_error w); [reflexivity|].
  destruct (truthy (db s !! nullish userId "")); reflexivity.
Qed.

(* ===================================================================== *)
(** ** Missing credential *)
(* ===================================================================== *)

(** C7. Whatever the input, when the bot token is not configured
    (absent or empty), [sendTelegramNotification] returns the
    "Telegram bot token not set" failure at once: the store is returned
    as it was, so neither the session check, nor the user table, nor the
    gateway has been called. *)
Theorem C7_notify_without_token (w : World) (i : NotifyInput) (s : Store) :
  truthy (TELEGRAM_BOT_TOKEN w) = false ->
  sendTelegramNotification w i s = (Normal token_not_set, s) /\
  new_events s (snd (sendTelegramNotification w i s)) = [].
Proof.
  intros Htoken.
  assert (Hrun : sendTelegramNotification w i s = (Normal token_not_set, s)).
  { unfold sendTelegramNotification. by rewrite Htoken. }
  split; [exact Hrun|].
  rewrite Hrun. apply new_events_same.
Qed.

Lemma C7_witness :
  sendTelegramNotification
    (sample_world None (Normal (Some "user-1")) (updates_ok []))
    {| ni_username := Some "bob"; ni_text := "hello" |} (stored "user-1" "bob")
  = (Normal token_not_set, stored "user-1" "bob").
Proof.
  apply (C7_notify_without_token
           (sample_world None (Normal (Some "user-1")) (updates_ok []))
           {| ni_username := Some "bob"; ni_text := "hello" |} (stored "user-1" "bob")).
  reflexivity.
Defined.

(* ===================================================================== *)
(** ** Callers without a session *)
(* ===================================================================== *)

(** C2, as stated, fails for [sendTelegramNotification]: the token check
    comes before the session check, so a caller without a session gets
    "Telegram bot token not set", not "UNAUTHORIZED", when no token is
    configured. *)
Lemma C2_notify_without_session_or_token :
  unauthenticated anonymous_world_without_token /\
  sendTelegramNotification anonymous_world_without_token
    {| ni_username := None; ni_text := "hello" |} empty_store
    = (Normal token_not_set, empty_store) /\
  ActionResponse.error token_not_set = Some "Telegram bot token not set" /\
  ActionResponse.error token_not_set <> Some UNAUTHORIZED.
Proof.
  split; [exists None; split; reflexivity|].
  split; [reflexivity|]. split; [reflexivity | discriminate].
Qed.

(** C2, amended. Without a session, [checkUserTelegramSetup],
    [verifyTelegramSetupAction] and [checkTelegramUsername] return the
    "UNAUTHORIZED" failure, and so does [sendTelegramNotification] when a
    bot token is configured; without a token it returns the "Telegram bot
    token not set" failure.  In every case the only collaborator that may
    have been called is the session check: no gateway call, no read or
    write of the user table, and the table is as before. *)
Theorem C2_unauthenticated
    (w : World) (s : Store) (username : option string)
    (vi : VerifyInput) (ni : NotifyInput) :
  unauthenticated w ->
  checkUserTelegramSetup w username s =
    (Normal {| CheckUserSetupResult.success := false;
               CheckUserSetupResult.error := Some UNAUTHORIZED;
               CheckUserSetupResult.userId := None;
               CheckUserSetupResult.username := None;
               CheckUserSetupResult.chatId := None;
               CheckUserSetupResult.botId := None |},
     record s [EvVerifyUser]) /\
  verifyTelegramSetupAction w vi s =
    (Normal {| ActionResponse.success := false;
               ActionResponse.error := Some UNAUTHORIZED;
               ActionResponse.data :=
                 Some {| TelegramActionData.success := false;
                         TelegramActionData.error := Some UNAUTHORIZED;
                         TelegramActionData.botId := None;
                         TelegramActionData.username := None |} |},
     record s [EvVerifyUser]) /\
  checkTelegramUsername w s =
    (Normal {| TelegramActionData.success := false;
               TelegramActionData.error := Some UNAUTHORIZED;
               TelegramActionData.botId := None;
               TelegramActionData.username := None |},
     record s [EvVerifyUser]) /\
  sendTelegramNotification w ni s =
    (if truthy (TELEGRAM_BOT_TOKEN w)
     then (Normal {| ActionResponse.success := false;
                     ActionResponse.error := Some UNAUTHORIZED;
                     ActionResponse.data :=
                       Some {| TelegramActionData.success := false;
                               TelegramActionData.error := Some UNAUTHORIZED;
                               TelegramActionData.botId := None;
                               TelegramActionData.username := None |} |},
           record s [EvVerifyUser])
     else (Normal token_not_set, s)) /\
  no_gateway_no_persistence
    (new_events s (snd (checkUserTelegramSetup w username s))) /\
  no_gateway_no_persistence
    (new_events s (snd (verifyTelegramSetupAction w vi s))) /\
  no_gateway_no_persistence
    (new_events s (snd (checkTelegramUsername w s))) /\
  no_gateway_no_persistence
    (new_events s (snd (sendTelegramNotification w ni s))).
Proof.
  intros (o & Hsession & Hfalsy).
  assert (Hquiet : no_gateway_no_persistence [EvVerifyUser]).
  { constructor; [split; reflexivity | constructor]. }
  assert (Hsetup : forall u,
    checkUserTelegramSetup w u s =
      (Normal (CheckUserSetupResult.mk false (Some UNAUTHORIZED) None None None None),
       record s [EvVerifyUser])).
  { intros u. rewrite checkUserTelegramSetup_run, Hsession, Hfalsy. reflexivity. }
  assert (Hverify : verifyTelegramSetupAction w vi s =
    (Normal (ActionResponse.mk false (Some UNAUTHORIZED)
               (Some (TelegramActionData.mk false (Some UNAUTHORIZED) None None))),
     record s [EvVerifyUser])).
  { rewrite verifyTelegramSetupAction_run, Hsetup. reflexivity. }
  assert (Hcheck : checkTelegramUsername w s =
    (Normal (TelegramActionData.mk false (Some UNAUTHORIZED) None None),
     record s [EvVerifyUser])).
  { rewrite checkTelegramUsername_run, Hsession, Hfalsy. reflexivity. }
  assert (Hnotify : sendTelegramNotification w ni s =
    (if truthy (TELEGRAM_BOT_TOKEN w)
     then (Normal (ActionResponse.mk false (Some UNAUTHORIZED)
                     (Some (TelegramActionData.mk false (Some UNAUTHORIZED) None None))),
           record s [EvVerifyUser])
     else (Normal token_not_set, s))).
  { rewrite sendTelegramNotification_run, Hsetup. reflexivity. }
  split; [apply Hsetup|]. split; [exact Hverify|].
  split; [exact Hcheck|]. split; [exact Hnotify|].
  split; [|split; [|split]].
  - rewrite Hsetup. cbn [snd]. by rewrite new_events_record.
  - rewrite Hverify. cbn [snd]. by rewrite new_events_record.
  - rewrite Hcheck. cbn [snd]. by rewrite new_events_record.
  - rewrite Hnotify. destruct (truthy (TELEGRAM_BOT_TOKEN w)); cbn [snd].
    + by rewrite new_events_record.
    + rewrite new_events_same. constructor.
Qed.

Lemma C2_witness :
  checkUserTelegramSetup (sample_world (Some "token") (Normal (Some "")) (updates_ok []))
    (Some "bob") (stored "user-1" "bob")
  = (Normal (CheckUserSetupResult.mk false (Some UNAUTHORIZED) None None None None),
     record (stored "user-1" "bob") [EvVerifyUser]).
Proof.
  apply (C2_unauthenticated
           (sample_world (Some "token") (Normal (Some "")) (updates_ok []))
           (stored "user-1" "bob") (Some "bob")
           {| vi_username := None |} {| ni_username := None; ni_text := "hi" |}).
  exists (Some ""). split; reflexivity.
Defined.

(* ===================================================================== *)
(** ** Errors raised by collaborators *)
(* ===================================================================== *)

(** C3, as stated, fails for the two operations that have no handler:
    [checkUserTelegramSetup] throws when the gateway answers the updates
    request with a non-2xx status, and [checkTelegramUsername] throws
    when the session check does. *)
Lemma C3_operations_without_handler_throw :
  fst (checkUserTelegramSetup
         (sample_world (Some "token") (Normal (Some "user-1")) updates_down)
         None (stored "user-1" "bob"))
  = Abrupt (ThrownError "Failed to retrieve bot updates") /\
  fst (checkTelegramUsername
         (sample_world (Some "token") (Abrupt (ThrownError "session lookup failed"))
            (updates_ok []))
         (stored "user-1" "bob"))
  = Abrupt (ThrownError "session lookup failed").
Proof. split; reflexivity. Qed.

(** C3, amended. The two safe actions, [verifyTelegramSetupAction] and
    [sendTelegramNotification], always return a value, and a failing one
    carries a message.  An exception reaching their handler, raised
    during the setup check or by the send, becomes the failure result
    [caught]: the Error's message, or the action's fallback text for a
    thrown value that is not an Error, and no bot identifier.  A failure
    returned by the setup check is forwarded with its message and the bot
    identifier it carries. *)
Theorem C3_safe_actions_catch
    (w : World) (s : Store) (vi : VerifyInput) (ni : NotifyInput) :
  (exists r s', verifyTelegramSetupAction w vi s = (Normal r, s') /\ carries_message r) /\
  (exists r s', sendTelegramNotification w ni s = (Normal r, s') /\ carries_message r) /\
  (forall err s',
     checkUserTelegramSetup w (vi_username vi) s = (Abrupt err, s') ->
     verifyTelegramSetupAction w vi s = (Normal (caught err "Verification failed"), s')) /\
  (forall err s',
     truthy (TELEGRAM_BOT_TOKEN w) = true ->
     checkUserTelegramSetup w (ni_username ni) s = (Abrupt err, s') ->
     sendTelegramNotification w ni s
       = (Normal (caught err "Failed to send notification"), s')) /\
  (forall setup s' err s'',
     truthy (TELEGRAM_BOT_TOKEN w) = true ->
     checkUserTelegramSetup w (ni_username ni) s = (Normal setup, s') ->
     CheckUserSetupResult.success setup = true ->
     sendTelegramMessage w (CheckUserSetupResult.chatId setup) (ni_text ni) s'
       = (Abrupt err, s'') ->
     sendTelegramNotification w ni s
       = (Normal (caught err "Failed to send notification"), s'')) /\
  (forall setup s',
     checkUserTelegramSetup w (vi_username vi) s = (Normal setup, s') ->
     CheckUserSetupResult.success setup = false ->
     verifyTelegramSetupAction w vi s = (Normal (forwarded setup), s')) /\
  (forall setup s',
     truthy (TELEGRAM_BOT_TOKEN w) = true ->
     checkUserTelegramSetup w (ni_username ni) s = (Normal setup, s') ->
     CheckUserSetupResult.success setup = false ->
     sendTelegramNotification w ni s = (Normal (forwarded setup), s')).
Proof.
  split; [|split; [|split; [|split; [|split; [|split]]]]].
  - rewrite verifyTelegramSetupAction_run.
    destruct (checkUserTelegramSetup w (vi_username vi) s) as [[setup|err] s'] eqn:Hrun.
    + eexists _, _. split; [reflexivity|].
      destruct (CheckUserSetupResult.success setup) eqn:Hok; [discriminate|].
      intros _. unfold forwarded. simpl.
      by apply (checkUserTelegramSetup_failure_message w (vi_username vi) s s').
    + eexists _, _. split; [reflexivity|]. intros _. simpl. eauto.
  - rewrite sendTelegramNotification_run.
    destruct (truthy (TELEGRAM_BOT_TOKEN w)).
    2: { eexists _, _. split; [reflexivity|]. intros _. simpl. eauto. }
    destruct (checkUserTelegramSetup w (ni_username ni) s) as [[setup|err] s'] eqn:Hrun.
    2: { eexists _, _. split; [reflexivity|]. intros _. simpl. eauto. }
    destruct (CheckUserSetupResult.success setup) eqn:Hok.
    + cbv zeta.
      destruct (sendMessage w _ _) as [err|[okb body]].
      * eexists _, _. split; [reflexivity|]. intros _. simpl. eauto.
      * destruct okb; eexists _, _; (split; [reflexivity|]).
        -- discriminate.
        -- intros _. simpl. eauto.
    + eexists _, _. split; [reflexivity|]. intros _. unfold forwarded. simpl.
      by apply (checkUserTelegramSetup_failure_message w (ni_username ni) s s').
  - intros err s' Hrun. by rewrite verifyTelegramSetupAction_run, Hrun.
  - intros err s' Htoken Hrun.
    by rewrite sendTelegramNotification_run, Htoken, Hrun.
  - intros setup s' err s'' Htoken Hrun Hok Hsend.
    rewrite sendTelegramNotification_run, Htoken, Hrun, Hok. cbv zeta.
    rewrite sendTelegramMessage_run in Hsend.
    destruct (sendMessage w _ _) as [e|[okb body]].
    + inversion Hsend; subst. reflexivity.
    + destruct okb; simpl in *; inversion Hsend; subst. reflexivity.
  - intros setup s' Hrun Hfail.
    by rewrite verifyTelegramSetupAction_run, Hrun, Hfail.
  - intros setup s' Htoken Hrun Hfail.
    by rewrite sendTelegramNotification_run, Htoken, Hrun, Hfail.
Qed.

Lemma C3_witness :
  verifyTelegramSetupAction
    (sample_world (Some "token") (Normal (Some "user-1")) updates_down)
    {| vi_username := None |} (stored "user-1" "bob")
  = (Normal (caught (ThrownError "Failed to retrieve bot updates") "Verification failed"),
     record (stored "user-1" "bob")
       [EvVerifyUser; EvDbGet "user-1"; EvFetch GetUpdates]).
Proof.
  apply (C3_safe_actions_catch
           (sample_world (Some "token") (Normal (Some "user-1")) updates_down)
           (stored "user-1" "bob") {| vi_username := None |}
           {| ni_username := None; ni_text := "hello" |}).
  reflexivity.
Defined.

(* ===================================================================== *)
(** ** The scan of the update list *)
(* ===================================================================== *)

Lemma from_username_spec (username : string) (msg : Telegram.Update) :
  from_username username msg = true <-> sender_username msg = Some username.
Proof.
  unfold from_username.
  destruct (sender_username msg) as [u|]; [|split; discriminate].
  rewrite String.eqb_eq. split; congruence.
Qed.

Lemma sender_has_message (username : string) (msg : Telegram.Update) :
  sender_username msg = Some username ->
  exists m, Telegram.message msg = Some m.
Proof.
  unfold sender_username.
  destruct (Telegram.message msg) as [m|]; [eauto | discriminate].
Qed.

(** No update from [username]: the scan finds nothing. *)
Lemma scan_no_match (username : string) (us : list Telegram.Update) :
  (forall x, In x us -> sender_username x <> Some username) ->
  scan username us = Normal None.
Proof.
  intros Hnone. unfold scan.
  destruct (find (from_username username) us) as [c|] eqn:Hfind; [|reflexivity].
  apply find_some in Hfind as [Hin Hc].
  apply from_username_spec in Hc. by apply Hnone in Hin.
Qed.

(** The scan stops at the first update from [username], in list order. *)
Lemma find_first_match (username : string) (pre post : list Telegram.Update)
    (u : Telegram.Update) :
  (forall x, In x pre -> sender_username x <> Some username) ->
  sender_username u = Some username ->
  find (from_username username) (pre ++ u :: post) = Some u.
Proof.
  intros Hpre Hu. induction pre as [|x pre IH]; simpl.
  - apply from_username_spec in Hu. by rewrite Hu.
  - destruct (from_username username x) eqn:Hx.
    + apply from_username_spec in Hx. exfalso. apply (Hpre x); [by left | done].
    + apply IH. intros y Hy. apply Hpre. by right.
Qed.

Lemma scan_first_match (username : string) (pre post : list Telegram.Update)
    (u : Telegram.Update) :
  (forall x, In x pre -> sender_username x <> Some username) ->
  sender_username u = Some username ->
  exists m, Telegram.message u = Some m /\
            scan username (pre ++ u :: post) = Normal (Some (Telegram.id (Telegram.chat m))).
Proof.
  intros Hpre Hu. unfold scan. rewrite (find_first_match _ _ _ _ Hpre Hu).
  destruct (sender_has_message _ _ Hu) as [m Hm].
  exists m. split; [exact Hm|]. unfold chat_id_of. by rewrite Hm.
Qed.

(** The update that [find] returns has a message, so reading its chat id
    never throws. *)
Lemma scan_returns (username : string) (us : list Telegram.Update) :
  exists o, scan username us = Normal o.
Proof.
  unfold scan.
  destruct (find (from_username username) us) as [c|] eqn:Hfind; [|eauto].
  apply find_some in Hfind as [_ Hc]. apply from_username_spec in Hc.
  destruct (sender_has_message _ _ Hc) as [m Hm].
  unfold chat_id_of. rewrite Hm. eauto.
Qed.

Lemma chat_lookup_response (w : World) (username : string) (okb : bool)
    (us : list Telegram.Update) :
  updates_response w okb us ->
  chat_lookup w username =
    if okb then scan username us
    else Abrupt (ThrownError "Failed to retrieve bot updates").
Proof.
  unfold updates_response, chat_lookup, received. intros ->. simpl.
  destruct okb; reflexivity.
Qed.

(** C8. When the gateway answers the updates request with an update
    list, [getChatIdByUsername] makes that one request and
    - throws, with "Failed to retrieve bot updates", exactly when the
      status is not 2xx;
    - otherwise returns the chat id of the first update, in list order,
      whose [message.from.username] is the handle,
    - and returns null, not an error, when no update matches. *)
Theorem C8_getChatIdByUsername
    (w : World) (username : string) (s : Store) (okb : bool)
    (us : list Telegram.Update) :
  updates_response w okb us ->
  snd (getChatIdByUsername w username s) = record s [EvFetch GetUpdates] /\
  ((exists e, fst (getChatIdByUsername w username s) = Abrupt e) <-> okb = false) /\
  (okb = false ->
   fst (getChatIdByUsername w username s)
     = Abrupt (ThrownError "Failed to retrieve bot updates")) /\
  (okb = true ->
   (forall pre u post,
      us = pre ++ u :: post ->
      (forall x, In x pre -> sender_username x <> Some username) ->
      sender_username u = Some username ->
      exists m, Telegram.message u = Some m /\
                fst (getChatIdByUsername w username s)
                  = Normal (Some (Telegram.id (Telegram.chat m)))) /\
   ((forall x, In x us -> sender_username x <> Some username) ->
    fst (getChatIdByUsername w username s) = Normal None)).
Proof.
  intros Hresp. rewrite getChatIdByUsername_run. cbn [fst snd].
  rewrite (chat_lookup_response w username okb us Hresp).
  split; [reflexivity|]. split; [|split].
  - destruct okb.
    + split; [|discriminate]. intros [e He].
      destruct (scan_returns username us) as [o Ho]. congruence.
    + split; eauto.
  - by intros ->.
  - intros ->. split.
    + intros pre u post -> Hpre Hu. by apply scan_first_match.
    + apply scan_no_match.
Qed.

Lemma C8_witness :
  fst (getChatIdByUsername
         (sample_world (Some "token") (Normal (Some "user-1"))
            (updates_ok [message_from "alice" "77"; message_from "bob" "123";
                         message_from "bob" "456"]))
         "bob" empty_store)
  = Normal (Some "123").
Proof.
  destruct (C8_getChatIdByUsername
              (sample_world (Some "token") (Normal (Some "user-1"))
                 (updates_ok [message_from "alice" "77"; message_from "bob" "123";
                              message_from "bob" "456"]))
              "bob" empty_store true
              [message_from "alice" "77"; message_from "bob" "123";
               message_from "bob" "456"] eq_refl)
    as (_ & _ & _ & Hok).
  destruct (Hok eq_refl) as [Hfirst _].
  destruct (Hfirst [message_from "alice" "77"] (message_from "bob" "123")
              [message_from "bob" "456"] eq_refl) as (m & Hm & Hrun).
  - intros x [<-|[]]. discriminate.
  - reflexivity.
  - simpl in Hm. inversion Hm; subst m. exact Hrun.
Defined.

(* ===================================================================== *)
(** ** The setup check for a signed-in user *)
(* ===================================================================== *)

Lemma authenticated_truthy (w : World) (uid : string) :
  authenticated w uid -> truthy (Some uid) = true.
Proof. intros [_ Hne]. by apply truthy_Some. Qed.

(** The run of a signed-in user, once the bot identifier is resolved and
    the user table has been read. *)
Lemma checkUserTelegramSetup_signed_in
    (w : World) (username : option string) (s : Store) (uid b : string) :
  authenticated w uid -> botIdentity w = Normal b -> dbGet_error w = None ->
  checkUserTelegramSetup w username s =
    let dbUsername := db s !! uid in
    let finalUsername := js_or username dbUsername in
    if truthy finalUsername then
      let sanitized := replaceAll "@" "" (nullish finalUsername "") in
      match chat_lookup w sanitized with
      | Abrupt e => (Abrupt e, record s (setup_calls w uid))
      | Normal chatId =>
          if truthy chatId then
            let done :=
              CheckUserSetupResult.mk true None (Some uid) (Some sanitized)
                chatId (Some b) in
            if negb (truthy dbUsername)
               || negb (bool_decide (dbUsername = Some sanitized))
            then
              let calls := setup_calls w uid ++ [EvDbUpdate uid sanitized] in
              match dbUpdate_error w with
              | Some e => (Abrupt e, record s calls)
              | None => (Normal done, write (record s calls) uid sanitized)
              end
            else (Normal done, record s (setup_calls w uid))
          else
            (Normal (CheckUserSetupResult.mk false (Some BOT_NOT_STARTED_ERROR)
                       (Some uid) None None (Some b)),
             record s (setup_calls w uid))
      end
    else
      (Normal (CheckUserSetupResult.mk false (Some MISSING_USERNAME_ERROR)
                 (Some uid) None None (Some b)),
       record s (EvVerifyUser :: bot_calls w ++ [EvDbGet uid])).
Proof.
  intros Hauth Hbot Hdb.
  rewrite checkUserTelegramSetup_run.
  rewrite (proj1 Hauth), (authenticated_truthy w uid Hauth), Hbot, Hdb.
  reflexivity.
Qed.

Lemma no_db_update_setup_calls (w : World) (uid : string) :
  no_db_update (setup_calls w uid).
Proof.
  unfold no_db_update, setup_calls, bot_calls.
  destruct (TELEGRAM_BOT_USERNAME w); repeat constructor.
Qed.

(** The test that guards the write: it is skipped exactly when a
    non-empty handle is stored and equals the sanitized one. *)
Lemma update_skipped (dbUsername : option string) (sanitized : string) :
  negb (truthy dbUsername) || negb (bool_decide (dbUsername = Some sanitized)) = false
  <-> truthy dbUsername = true /\ dbUsername = Some sanitized.
Proof.
  rewrite orb_false_iff, !negb_false_iff, bool_decide_eq_true. reflexivity.
Qed.

(** C5. For a signed-in user with a non-empty effective handle, when the
    bot identifier resolves, the user table answers and the gateway
    returns an update list in which no message comes from the sanitized
    handle, [checkUserTelegramSetup] returns the "Bot not started yet"
    failure with the user id and the bot identifier, and the user table
    is neither written nor changed. *)
Theorem C5_bot_not_started
    (w : World) (username : option string) (s : Store) (uid b h : string)
    (us : list Telegram.Update) :
  authenticated w uid ->
  botIdentity w = Normal b ->
  dbGet_error w = None ->
  js_or username (db s !! uid) = Some h ->
  h <> "" ->
  updates_response w true us ->
  (forall x, In x us -> sender_username x <> Some (replaceAll "@" "" h)) ->
  checkUserTelegramSetup w username s =
    (Normal {| CheckUserSetupResult.success := false;
               CheckUserSetupResult.error := Some BOT_NOT_STARTED_ERROR;
               CheckUserSetupResult.userId := Some uid;
               CheckUserSetupResult.username := None;
               CheckUserSetupResult.chatId := None;
               CheckUserSetupResult.botId := Some b |},
     record s (setup_calls w uid)) /\
  no_db_update (new_events s (snd (checkUserTelegramSetup w username s))) /\
  db (snd (checkUserTelegramSetup w username s)) = db s.
Proof.
  intros Hauth Hbot Hdb Hfinal Hh Hresp Hnone.
  assert (Hrun : checkUserTelegramSetup w username s =
    (Normal (CheckUserSetupResult.mk false (Some BOT_NOT_STARTED_ERROR)
               (Some uid) None None (Some b)),
     record s (setup_calls w uid))).
  { rewrite (checkUserTelegramSetup_signed_in w username s uid b Hauth Hbot Hdb).
    cbv zeta. rewrite Hfinal. rewrite (proj2 (truthy_Some h) Hh). cbn [nullish].
    rewrite (chat_lookup_response w _ true us Hresp).
    by rewrite (scan_no_match _ us Hnone). }
  rewrite Hrun. cbn [snd]. rewrite new_events_record.
  split; [reflexivity|]. split; [apply no_db_update_setup_calls | reflexivity].
Qed.

Lemma C5_witness :
  checkUserTelegramSetup bob_world (Some "@carol") (stored "user-1" "bob")
  = (Normal (CheckUserSetupResult.mk false (Some BOT_NOT_STARTED_ERROR)
               (Some "user-1") None None (Some "aguera_bot")),
     record (stored "user-1" "bob") (setup_calls bob_world "user-1")).
Proof.
  apply (C5_bot_not_started bob_world (Some "@carol") (stored "user-1" "bob")
           "user-1" "aguera_bot" "@carol" [message_from "bob" "123"]).
  - split; [reflexivity | discriminate].
  - reflexivity.
  - reflexivity.
  - reflexivity.
  - discriminate.
  - reflexivity.
  - intros x [<-|[]]. discriminate.
Defined.

(* ===================================================================== *)
(** ** The effective handle *)
(* ===================================================================== *)

(** C1, as stated, fails: with the empty string as override and "bob"
    stored, [handleOverride ?? storedHandle] is the empty string, which
    would give the missing-handle failure; the code falls back to "bob"
    and the check succeeds. *)
Lemma C1_empty_override_falls_back :
  effectiveHandle_spec (Some "") (db (stored "user-1" "bob") !! "user-1") = Some "" /\
  fst (checkUserTelegramSetup bob_world (Some "") (stored "user-1" "bob"))
    = Normal {| CheckUserSetupResult.success := true;
                CheckUserSetupResult.error := None;
                CheckUserSetupResult.userId := Some "user-1";
                CheckUserSetupResult.username := Some "bob";
                CheckUserSetupResult.chatId := Some "123";
                CheckUserSetupResult.botId := Some "aguera_bot" |} /\
  fst (checkUserTelegramSetup bob_world (Some "") (stored "user-1" "bob"))
    <> Normal {| CheckUserSetupResult.success := false;
                 CheckUserSetupResult.error := Some MISSING_USERNAME_ERROR;
                 CheckUserSetupResult.userId := Some "user-1";
                 CheckUserSetupResult.username := None;
                 CheckUserSetupResult.chatId := None;
                 CheckUserSetupResult.botId := Some "aguera_bot" |}.
Proof. split; [reflexivity|]. split; [reflexivity | discriminate]. Qed.

Lemma js_or_falsy (username dbUsername : option string) :
  truthy username = false -> js_or username dbUsername = dbUsername.
Proof. unfold js_or. by intros ->. Qed.

Lemma js_or_truthy (username dbUsername : option string) :
  truthy username = true -> js_or username dbUsername = username.
Proof. unfold js_or. by intros ->. Qed.

(** An absent or empty override changes nothing: the run is the run
    without override. *)
Lemma checkUserTelegramSetup_falsy_override
    (w : World) (username : option string) (s : Store) :
  truthy username = false ->
  checkUserTelegramSetup w username s = checkUserTelegramSetup w None s.
Proof.
  intros Hfalsy. rewrite !checkUserTelegramSetup_run.
  destruct (session w) as [userId|e]; [|reflexivity].
  destruct (truthy userId); [|reflexivity].
  cbv zeta. by rewrite (js_or_falsy username _ Hfalsy).
Qed.

(** C1, amended. For a signed-in user (bot identifier resolved, user
    table readable), the handle used for the rest of the operation is
    [handleOverride || storedHandle]: the override when it is a non-empty
    string, the stored handle otherwise.  An empty-string override
    behaves like no override.  The missing-handle failure is returned
    exactly when that handle is empty or absent; otherwise the gateway is
    scanned for that handle with its at-signs removed, which is also the
    username of a success result. *)
Theorem C1_effective_handle
    (w : World) (username : option string) (s : Store) (uid b : string) :
  authenticated w uid ->
  botIdentity w = Normal b ->
  dbGet_error w = None ->
  (truthy username = true -> js_or username (db s !! uid) = username) /\
  (truthy username = false ->
   js_or username (db s !! uid) = db s !! uid /\
   checkUserTelegramSetup w username s = checkUserTelegramSetup w None s) /\
  (truthy (js_or username (db s !! uid)) = false ->
   checkUserTelegramSetup w username s =
     (Normal {| CheckUserSetupResult.success := false;
                CheckUserSetupResult.error := Some MISSING_USERNAME_ERROR;
                CheckUserSetupResult.userId := Some uid;
                CheckUserSetupResult.username := None;
                CheckUserSetupResult.chatId := None;
                CheckUserSetupResult.botId := Some b |},
      record s (EvVerifyUser :: bot_calls w ++ [EvDbGet uid]))) /\
  (forall h,
     js_or username (db s !! uid) = Some h -> h <> "" ->
     forall r s',
       checkUserTelegramSetup w username s = (Normal r, s') ->
       CheckUserSetupResult.error r <> Some MISSING_USERNAME_ERROR /\
       (CheckUserSetupResult.success r = true ->
        CheckUserSetupResult.username r = Some (replaceAll "@" "" h) /\
        chat_lookup w (replaceAll "@" "" h) = Normal (CheckUserSetupResult.chatId r))).
Proof.
  intros Hauth Hbot Hdb.
  split; [apply js_or_truthy|].
  split; [intros Hfalsy; split;
          [by apply js_or_falsy | by apply checkUserTelegramSetup_falsy_override]|].
  split.
  - intros Hfalsy.
    rewrite (checkUserTelegramSetup_signed_in w username s uid b Hauth Hbot Hdb).
    cbv zeta. by rewrite Hfalsy.
  - intros h Hfinal Hh r s'.
    rewrite (checkUserTelegramSetup_signed_in w username s uid b Hauth Hbot Hdb).
    cbv zeta. rewrite Hfinal, (proj2 (truthy_Some h) Hh). cbn [nullish].
    intros Hrun. split_run Hrun; simplify_eq; simpl; (split; [discriminate|]);
      try discriminate; by intros _.
Qed.

Lemma C1_witness :
  checkUserTelegramSetup bob_world (Some "") (stored "user-1" "bob")
  = checkUserTelegramSetup bob_world None (stored "user-1" "bob").
Proof.
  apply (C1_effective_handle bob_world (Some "") (stored "user-1" "bob")
           "user-1" "aguera_bot").
  - split; [reflexivity | discriminate].
  - reflexivity.
  - reflexivity.
  - reflexivity.
Defined.

(* ===================================================================== *)
(** ** Writes to the user table *)
(* ===================================================================== *)


Lemma no_db_update_before_scan (w : World) (uid : string) :
  no_db_update [EvVerifyUser] /\
  no_db_update (EvVerifyUser :: bot_calls w) /\
  no_db_update (EvVerifyUser :: bot_calls w ++ [EvDbGet uid]).
Proof.
  unfold no_db_update, bot_calls.
  destruct (TELEGRAM_BOT_USERNAME w); repeat constructor.
Qed.






(** Both spellings of a stored handle are idempotent on the table. *)
Example checkUserTelegramSetup_alice_idempotent :
  db (snd (checkUserTelegramSetup alice_world (Some "alice") (stored "user-1" "alice")))
    = db (stored "user-1" "alice") /\
  db (snd (checkUserTelegramSetup alice_world (Some "@alice") (stored "user-1" "alice")))
    = db (stored "user-1" "alice") /\
  db (snd (checkUserTelegramSetup alice_world (Some "@alice") empty_store))
    = db (stored "user-1" "alice") /\
  db (snd (checkUserTelegramSetup alice_world (Some "alice") empty_store))
    = db (stored "user-1" "alice").
Proof. repeat split; vm_compute; reflexivity. Qed.

(** C9. After every run of [checkUserTelegramSetup] that returns a
    success result, the handle stored for the user of the result is the
    username of the result. *)
Theorem C9_store_in_sync
    (w : World) (username : option string) (s s' : Store)
    (r : CheckUserSetupResult.t) :
  checkUserTelegramSetup w username s = (Normal r, s') ->
  CheckUserSetupResult.success r = true ->
  exists uid h,
    CheckUserSetupResult.userId r = Some uid /\
    CheckUserSetupResult.username r = Some h /\
    db s' !! uid = Some h.
Proof.
  rewrite checkUserTelegramSetup_run. intros Hrun Hok.
  destruct (session w) as [userId|e]; [|discriminate].
  destruct (truthy userId) eqn:Huser; [|by simplify_eq].
  apply truthy_is_Some in Huser as (uid & -> & _).
  cbv zeta in Hrun. cbn [nullish] in Hrun.
  destruct (botIdentity w) as [b|e]; [|discriminate].
  destruct (dbGet_error w) as [e|]; [discriminate|].
  destruct (truthy (js_or username (db s !! uid))); [|by simplify_eq].
  set (sanitized := replaceAll "@" "" (nullish (js_or username (db s !! uid)) ""))
    in *.
  destruct (chat_lookup w sanitized) as [chatId|e]; [|discriminate].
  destruct (truthy chatId); [|by simplify_eq].
  destruct (negb (truthy (db s !! uid))
            || negb (bool_decide (db s !! uid = Some sanitized))) eqn:Hguard.
  - destruct (dbUpdate_error w) as [e|]; [discriminate|].
    simplify_eq. exists uid, sanitized. repeat split.
    unfold write. cbn [db]. apply lookup_insert_eq.
  - apply update_skipped in Hguard as [_ Hstored].
    simplify_eq. exists uid, sanitized. repeat split. exact Hstored.
Qed.

Lemma C9_witness :
  db (snd (checkUserTelegramSetup bob_world (Some "@bob") empty_store)) !! "user-1"
  = Some "bob".
Proof.
  destruct (C9_store_in_sync bob_world (Some "@bob") empty_store
              (snd (checkUserTelegramSetup bob_world (Some "@bob") empty_store))
              (CheckUserSetupResult.mk true None (Some "user-1") (Some "bob")
                 (Some "123") (Some "aguera_bot")) eq_refl eq_refl)
    as (uid & h & Huid & Hh & Hdb).
  simpl in Huid, Hh. inversion Huid; subst uid. inversion Hh; subst h.
  exact Hdb.
Defined.

(* ===================================================================== *)
(** ** An override made of at-signs only *)
(* ===================================================================== *)

Lemma truthy_at_signs (n : nat) : 0 < n -> truthy (Some (at_signs n)) = true.
Proof. destruct n as [|k]; [lia | reflexivity]. Qed.

Lemma replaceAll_at_signs (n : nat) : replaceAll "@" "" (at_signs n) = "".
Proof. induction n as [|k IH]; [reflexivity | exact IH]. Qed.

Lemma In_getUpdates_setup_calls (w : World) (uid : string) :
  In (EvFetch GetUpdates) (setup_calls w uid).
Proof.
  unfold setup_calls. right. apply in_app_iff. right. right. by left.
Qed.

(** C10. For a signed-in user (bot identifier resolved, user table
    readable) and an override made of one or more at-signs, the empty
    check passes, since it is made before the at-signs are removed:
    [checkUserTelegramSetup] never returns the missing-handle failure; it
    sends the updates request and scans the answer for the empty string,
    and the outcome of that scan decides the result. *)
Theorem C10_at_sign_override
    (w : World) (n : nat) (s : Store) (uid b : string) :
  0 < n ->
  authenticated w uid ->
  botIdentity w = Normal b ->
  dbGet_error w = None ->
  (forall r,
     fst (checkUserTelegramSetup w (Some (at_signs n)) s) = Normal r ->
     CheckUserSetupResult.error r <> Some MISSING_USERNAME_ERROR) /\
  In (EvFetch GetUpdates)
     (new_events s (snd (checkUserTelegramSetup w (Some (at_signs n)) s))) /\
  match chat_lookup w "" with
  | Abrupt e =>
      checkUserTelegramSetup w (Some (at_signs n)) s
        = (Abrupt e, record s (setup_calls w uid))
  | Normal chatId =>
      if truthy chatId then
        forall r,
          fst (checkUserTelegramSetup w (Some (at_signs n)) s) = Normal r ->
          r = {| CheckUserSetupResult.success := true;
                 CheckUserSetupResult.error := None;
                 CheckUserSetupResult.userId := Some uid;
                 CheckUserSetupResult.username := Some "";
                 CheckUserSetupResult.chatId := chatId;
                 CheckUserSetupResult.botId := Some b |}
      else
        checkUserTelegramSetup w (Some (at_signs n)) s
          = (Normal {| CheckUserSetupResult.success := false;
                       CheckUserSetupResult.error := Some BOT_NOT_STARTED_ERROR;
                       CheckUserSetupResult.userId := Some uid;
                       CheckUserSetupResult.username := None;
                       CheckUserSetupResult.chatId := None;
                       CheckUserSetupResult.botId := Some b |},
             record s (setup_calls w uid))
  end.
Proof.
  intros Hn Hauth Hbot Hdb.
  rewrite (checkUserTelegramSetup_signed_in w _ s uid b Hauth Hbot Hdb).
  cbv zeta.
  rewrite (js_or_truthy _ (db s !! uid) (truthy_at_signs n Hn)).
  rewrite (truthy_at_signs n Hn). cbn [nullish]. rewrite replaceAll_at_signs.
  pose proof (In_getUpdates_setup_calls w uid) as Hin.
  destruct (chat_lookup w "") as [chatId|e].
  2: { cbn [fst snd]. rewrite new_events_record. by repeat split. }
  destruct (truthy chatId).
  2: { cbn [fst snd]. rewrite new_events_record.
       split; [|by split]. intros r Hr. simplify_eq. discriminate. }
  destruct (negb (truthy (db s !! uid)) || negb (bool_decide (db s !! uid = Some ""))).
  - destruct (dbUpdate_error w) as [e|]; cbn [fst snd].
    + rewrite new_events_record. split; [discriminate|].
      split; [apply in_app_iff; by left | discriminate].
    + rewrite new_events_write. split; [intros r Hr; simplify_eq; discriminate|].
      split; [apply in_app_iff; by left | intros r Hr; by simplify_eq].
  - cbn [fst snd]. rewrite new_events_record.
    split; [intros r Hr; simplify_eq; discriminate|].
    split; [exact Hin | intros r Hr; by simplify_eq].
Qed.

Lemma C10_witness :
  checkUserTelegramSetup bob_world (Some "@") (stored "user-1" "bob")
  = (Normal (CheckUserSetupResult.mk false (Some BOT_NOT_STARTED_ERROR)
               (Some "user-1") None None (Some "aguera_bot")),
     record (stored "user-1" "bob") (setup_calls bob_world "user-1")).
Proof.
  assert (Hauth : authenticated bob_world "user-1")
    by (split; [reflexivity | discriminate]).
  destruct (C10_at_sign_override bob_world 1 (stored "user-1" "bob")
              "user-1" "aguera_bot" (Nat.lt_0_1) Hauth eq_refl eq_refl)
    as (_ & _ & Hscan).
  exact Hscan.
Defined.

(* ===================================================================== *)
(** ** End to end *)
(* ===================================================================== *)

(** C6. A signed-in user has the handle "bob" stored, a bot token is
    configured, the bot identifier resolves, and the gateway's update
    list contains the entry [{message: {from: {username: "bob"}, chat:
    {id: "123"}}}] as its first message from "bob".  Then
    [checkUserTelegramSetup] returns success with chat id "123" and
    username "bob", writing nothing; and a following
    [sendTelegramNotification] with text "hello", which the gateway
    accepts, posts [{chat_id: "123", text: "hello"}] as its last call and
    returns success. *)
Theorem C6_end_to_end
    (w : World) (s : Store) (uid b : string)
    (pre post : list Telegram.Update) (body : completion unit) :
  authenticated w uid ->
  truthy (TELEGRAM_BOT_TOKEN w) = true ->
  botIdentity w = Normal b ->
  dbGet_error w = None ->
  db s !! uid = Some "bob" ->
  updates_response w true (pre ++ message_from "bob" "123" :: post) ->
  (forall x, In x pre -> sender_username x <> Some "bob") ->
  sendMessage w (Some "123") "hello" = Resolved {| ok := true; json := body |} ->
  let s1 := record s (setup_calls w uid) in
  let s2 :=
    record s1 (setup_calls w uid ++ [EvFetch (SendMessage (Some "123") "hello")]) in
  checkUserTelegramSetup w None s =
    (Normal {| CheckUserSetupResult.success := true;
               CheckUserSetupResult.error := None;
               CheckUserSetupResult.userId := Some uid;
               CheckUserSetupResult.username := Some "bob";
               CheckUserSetupResult.chatId := Some "123";
               CheckUserSetupResult.botId := Some b |}, s1) /\
  sendTelegramNotification w {| ni_username := None; ni_text := "hello" |} s1 =
    (Normal {| ActionResponse.success := true;
               ActionResponse.error := None;
               ActionResponse.data :=
                 Some {| TelegramActionData.success := true;
                         TelegramActionData.error := None;
                         TelegramActionData.botId := Some b;
                         TelegramActionData.username := None |} |}, s2).
Proof.
  intros Hauth Htoken Hbot Hdb Hstored Hresp Hpre Hsend s1 s2.
  assert (Hsetup : forall st,
    db st !! uid = Some "bob" ->
    checkUserTelegramSetup w None st =
      (Normal (CheckUserSetupResult.mk true None (Some uid) (Some "bob")
                 (Some "123") (Some b)),
       record st (setup_calls w uid))).
  { intros st Hst.
    rewrite (checkUserTelegramSetup_signed_in w None st uid b Hauth Hbot Hdb).
    cbv zeta. rewrite Hst. cbn.
    rewrite (chat_lookup_response w "bob" true _ Hresp).
    destruct (scan_first_match "bob" pre post (message_from "bob" "123") Hpre eq_refl)
      as (m & Hm & ->).
    simpl in Hm. inversion Hm; subst m. reflexivity. }
  split; [by apply Hsetup|].
  rewrite sendTelegramNotification_run, Htoken.
  cbn [ni_username ni_text].
  rewrite (Hsetup s1 Hstored). cbn. rewrite Hsend. cbn.
  subst s2. by rewrite record_record.
Qed.

Lemma C6_witness :
  checkUserTelegramSetup bob_world None (stored "user-1" "bob") =
    (Normal (CheckUserSetupResult.mk true None (Some "user-1") (Some "bob")
               (Some "123") (Some "aguera_bot")),
     record (stored "user-1" "bob") (setup_calls bob_world "user-1")) /\
  sendTelegramNotification bob_world {| ni_username := None; ni_text := "hello" |}
    (record (stored "user-1" "bob") (setup_calls bob_world "user-1")) =
    (Normal (ActionResponse.mk true None
               (Some (TelegramActionData.mk true None (Some "aguera_bot") None))),
     record (record (stored "user-1" "bob") (setup_calls bob_world "user-1"))
       (setup_calls bob_world "user-1"
          ++ [EvFetch (SendMessage (Some "123") "hello")])).
Proof.
  apply (C6_end_to_end bob_world (stored "user-1" "bob") "user-1" "aguera_bot"
           [] [] (Normal tt)).
  - split; [reflexivity | discriminate].
  - reflexivity.
  - reflexivity.
  - reflexivity.
  - reflexivity.
  - reflexivity.
  - intros x [].
  - reflexivity.
Defined.

(* ===================================================================== *)
(** ** Further properties: the calls of the setup check *)
(* ===================================================================== *)

Lemma session_user_truthy (w : World) (userId : option string) :
  session w = Normal userId -> truthy userId = true ->
  userId = Some (session_user w) /\ authenticated w (session_user w).
Proof.
  intros Hs Ht. apply truthy_is_Some in Ht as (uid & -> & Hne).
  unfold session_user, authenticated. rewrite Hs. auto.
Qed.

Lemma authenticated_session_user (w : World) (uid : string) :
  authenticated w uid -> session_user w = uid.
Proof. intros [Hs _]. unfold session_user. by rewrite Hs. Qed.

Lemma prefix_full_calls (w : World) (uid h : string) :
  [EvVerifyUser] `prefix_of` full_calls w uid h /\
  (EvVerifyUser :: bot_calls w) `prefix_of` full_calls w uid h /\
  (EvVerifyUser :: bot_calls w ++ [EvDbGet uid]) `prefix_of` full_calls w uid h /\
  setup_calls w uid `prefix_of` full_calls w uid h.
Proof.
  unfold full_calls, setup_calls. repeat split.
  - eexists. reflexivity.
  - exists [EvDbGet uid; EvFetch GetUpdates; EvDbUpdate uid h].
    simpl. by rewrite <- app_assoc.
  - exists [EvFetch GetUpdates; EvDbUpdate uid h].
    simpl. by rewrite <- !app_assoc.
  - by exists [EvDbUpdate uid h].
Qed.

(** Where a run of [checkUserTelegramSetup] leaves the store: the log
    grows by a prefix of [full_calls]; the table is written only at the
    end of the full sequence, for the signed-in user, in a run that
    returns success. *)
Lemma checkUserTelegramSetup_store (w : World) (username : option string) (s : Store) :
  let uid := session_user w in
  let h := sanitized_handle username (db s !! uid) in
  exists calls,
    calls `prefix_of` full_calls w uid h /\
    (snd (checkUserTelegramSetup w username s) = record s calls \/
     calls = full_calls w uid h /\
     snd (checkUserTelegramSetup w username s) = write (record s calls) uid h /\
     authenticated w uid /\
     exists r, fst (checkUserTelegramSetup w username s) = Normal r /\
               CheckUserSetupResult.success r = true).
Proof.
  intros uid h.
  destruct (prefix_full_calls w uid h) as (P1 & P2 & P3 & P4).
  rewrite checkUserTelegramSetup_run.
  destruct (session w) as [userId|e] eqn:Hs; [|eauto].
  destruct (truthy userId) eqn:Ht; [|eauto].
  destruct (session_user_truthy w userId Hs Ht) as [-> Hauth].
  cbv zeta. cbn [nullish]. fold uid. fold (sanitized_handle username (db s !! uid)).
  fold h.
  destruct (botIdentity w) as [b|e]; [|eauto].
  destruct (dbGet_error w) as [e|]; [eauto|].
  destruct (truthy (js_or username (db s !! uid))); [|eauto].
  destruct (chat_lookup w h) as [chatId|e]; [|eauto].
  destruct (truthy chatId); [|eauto].
  destruct (negb (truthy (db s !! uid)) || negb (bool_decide (db s !! uid = Some h)));
    [|eauto].
  fold (full_calls w uid h).
  destruct (dbUpdate_error w) as [e|].
  - exists (full_calls w uid h). split; [done | by left].
  - exists (full_calls w uid h). split; [done|]. right. cbn [fst snd]. eauto 10.
Qed.

Lemma log_record (s : Store) (calls : list Event) : log (record s calls) = log s ++ calls.
Proof. reflexivity. Qed.

Lemma checkUserTelegramSetup_calls_prefix
    (w : World) (username : option string) (s : Store) :
  new_events s (snd (checkUserTelegramSetup w username s))
    `prefix_of`
  (EvVerifyUser :: bot_calls w ++
     [EvDbGet (session_user w); EvFetch GetUpdates;
      EvDbUpdate (session_user w)
        (sanitized_handle username (db s !! session_user w))]).
Proof.
  destruct (checkUserTelegramSetup_store w username s) as (calls & Hpre & Hstore).
  assert (Hnew : new_events s (snd (checkUserTelegramSetup w username s)) = calls).
  { destruct Hstore as [->|(_ & -> & _)];
      [apply new_events_record | apply new_events_write]. }
  rewrite Hnew. unfold full_calls, setup_calls in Hpre.
  simpl in Hpre. by rewrite <- app_assoc in Hpre.
Qed.

(** X1. The calls of [checkUserTelegramSetup] come in one fixed order and
    each at most once: session check, identity request (only without a
    configured bot name), read of the user table, updates request, write
    of the user table.  A run stops somewhere along this sequence. *)
Theorem setup_calls_in_order (w : World) (username : option string) (s : Store) :
  new_events s (snd (checkUserTelegramSetup w username s))
    `prefix_of`
  (EvVerifyUser :: bot_calls w ++
     [EvDbGet (session_user w); EvFetch GetUpdates;
      EvDbUpdate (session_user w)
        (sanitized_handle username (db s !! session_user w))]).
Proof. apply checkUserTelegramSetup_calls_prefix. Qed.

(** What the two safe actions leave behind, relative to the setup check
    they start with. *)
Lemma verifyTelegramSetupAction_store (w : World) (i : VerifyInput) (s : Store) :
  snd (verifyTelegramSetupAction w i s)
    = snd (checkUserTelegramSetup w (vi_username i) s).
Proof.
  rewrite verifyTelegramSetupAction_run.
  by destruct (checkUserTelegramSetup w (vi_username i) s) as [[setup|err] s'].
Qed.

Lemma sendTelegramNotification_store (w : World) (i : NotifyInput) (s : Store) :
  snd (sendTelegramNotification w i s) = s \/
  snd (sendTelegramNotification w i s)
    = snd (checkUserTelegramSetup w (ni_username i) s) \/
  exists chat,
    snd (sendTelegramNotification w i s)
      = record (snd (checkUserTelegramSetup w (ni_username i) s))
          [EvFetch (SendMessage chat (ni_text i))].
Proof.
  rewrite sendTelegramNotification_run.
  destruct (truthy (TELEGRAM_BOT_TOKEN w)); [|by left].
  destruct (checkUserTelegramSetup w (ni_username i) s) as [[setup|err] s'];
    [|right; by left].
  destruct (CheckUserSetupResult.success setup); [|right; by left].
  cbv zeta. right. right. exists (CheckUserSetupResult.chatId setup).
  destruct (sendMessage w _ _) as [err|[okb body]]; [reflexivity|].
  by destruct okb.
Qed.

(** X2. No operation of the module touches the row of a user other than
    the one the session check names: whatever the collaborators answer,
    the handle stored for any other user id is the same afterwards. *)
Theorem other_users_untouched
    (w : World) (s : Store) (other : string)
    (username : option string) (vi : VerifyInput) (ni : NotifyInput) :
  session w <> Normal (Some other) ->
  db (snd (checkUserTelegramSetup w username s)) !! other = db s !! other /\
  db (snd (verifyTelegramSetupAction w vi s)) !! other = db s !! other /\
  db (snd (sendTelegramNotification w ni s)) !! other = db s !! other /\
  db (snd (checkTelegramUsername w s)) !! other = db s !! other.
Proof.
  intros Hother.
  assert (Hsetup : forall u,
            db (snd (checkUserTelegramSetup w u s)) !! other = db s !! other).
  { intros u.
    destruct (checkUserTelegramSetup_store w u s)
      as (calls & _ & [->|(_ & -> & [Hs _] & _)]); [reflexivity|].
    unfold write. cbn [db record]. apply lookup_insert_ne.
    intros Heq. apply Hother. by rewrite <- Heq. }
  split; [apply Hsetup|]. split; [|split].
  - rewrite verifyTelegramSetupAction_store. apply Hsetup.
  - destruct (sendTelegramNotification_store w ni s) as [->|[->|[chat ->]]];
      [reflexivity | apply Hsetup | apply Hsetup].
  - rewrite checkTelegramUsername_run. cbv zeta.
    repeat match goal with
           | |- context [match ?x with _ => _ end] => destruct x
           end; reflexivity.
Qed.

Lemma other_users_untouched_witness :
  db (snd (checkUserTelegramSetup bob_world (Some "@bob") (stored "user-2" "carol")))
    !! "user-2" = Some "carol".
Proof.
  apply (other_users_untouched bob_world (stored "user-2" "carol") "user-2"
           (Some "@bob") {| vi_username := None |}
           {| ni_username := None; ni_text := "hello" |}).
  discriminate.
Defined.

(** X3. A run of [checkUserTelegramSetup] that returns a failure result,
    whichever it is, has not written the user table and leaves it as it
    was. *)
Theorem setup_failure_keeps_table
    (w : World) (username : option string) (s s' : Store)
    (r : CheckUserSetupResult.t) :
  checkUserTelegramSetup w username s = (Normal r, s') ->
  CheckUserSetupResult.success r = false ->
  db s' = db s /\ no_db_update (new_events s s').
Proof.
  rewrite checkUserTelegramSetup_run. intros Hrun Hfail.
  split_run Hrun; simplify_eq; simpl in Hfail; try discriminate.
  all: rewrite new_events_record; split; [reflexivity|].
  all: first [ apply no_db_update_setup_calls
             | apply (proj1 (no_db_update_before_scan w ""))
             | apply no_db_update_before_scan ].
Qed.

Lemma setup_failure_keeps_table_witness :
  db (snd (checkUserTelegramSetup bob_world (Some "@carol") (stored "user-1" "bob")))
    = db (stored "user-1" "bob").
Proof.
  apply (setup_failure_keeps_table bob_world (Some "@carol") (stored "user-1" "bob")
           (snd (checkUserTelegramSetup bob_world (Some "@carol") (stored "user-1" "bob")))
           (CheckUserSetupResult.mk false (Some BOT_NOT_STARTED_ERROR)
              (Some "user-1") None None (Some "aguera_bot")));
    reflexivity.
Defined.

(* ===================================================================== *)
(** ** Further properties: what the results of the setup check say *)
(* ===================================================================== *)

(** Everything a success result of [checkUserTelegramSetup] implies about
    the run that returned it. *)
Lemma checkUserTelegramSetup_success_inv
    (w : World) (username : option string) (s s' : Store)
    (r : CheckUserSetupResult.t) :
  checkUserTelegramSetup w username s = (Normal r, s') ->
  CheckUserSetupResult.success r = true ->
  exists uid b c,
    let h := sanitized_handle username (db s !! uid) in
    authenticated w uid /\
    botIdentity w = Normal b /\
    dbGet_error w = None /\
    truthy (js_or username (db s !! uid)) = true /\
    chat_lookup w h = Normal (Some c) /\
    c <> "" /\
    r = CheckUserSetupResult.mk true None (Some uid) (Some h) (Some c) (Some b) /\
    db s' !! uid = Some h /\
    (forall other, other <> uid -> db s' !! other = db s !! other).
Proof.
  rewrite checkUserTelegramSetup_run. intros Hrun Hok.
  destruct (session w) as [userId|e] eqn:Hs; [|discriminate].
  destruct (truthy userId) eqn:Huser; [|by simplify_eq].
  destruct (session_user_truthy w userId Hs Huser) as [-> Hauth].
  set (uid := session_user w) in *.
  cbv zeta in Hrun. cbn [nullish] in Hrun.
  destruct (botIdentity w) as [b|e] eqn:Hbot; [|discriminate].
  destruct (dbGet_error w) as [e|] eqn:Hdb; [discriminate|].
  destruct (truthy (js_or username (db s !! uid))) eqn:Hfinal; [|by simplify_eq].
  fold (sanitized_handle username (db s !! uid)) in Hrun.
  set (h := sanitized_handle username (db s !! uid)) in *.
  destruct (chat_lookup w h) as [chatId|e] eqn:Hlookup; [|discriminate].
  destruct (truthy chatId) eqn:Hchat; [|by simplify_eq].
  apply truthy_is_Some in Hchat as (c & -> & Hc).
  exists uid, b, c. cbv zeta. fold h.
  destruct (negb (truthy (db s !! uid))
            || negb (bool_decide (db s !! uid = Some h))) eqn:Hguard.
  - destruct (dbUpdate_error w) as [e|]; [discriminate|].
    simplify_eq. repeat (split; [done|]). unfold write. cbn [db record]. split.
    + apply lookup_insert_eq.
    + intros other Hother. by apply lookup_insert_ne.
  - apply update_skipped in Hguard as [_ Hstored].
    simplify_eq. repeat (split; [done|]). done.
Qed.

(** X4. A success result of [checkUserTelegramSetup] is complete: no
    error, and a user id, a username, a bot identifier and a chat id, the
    user id and the chat id being non-empty strings; this is what the
    non-null assertion [setup.chatId!] of [sendTelegramNotification]
    relies on. *)
Theorem setup_success_is_complete
    (w : World) (username : option string) (s s' : Store)
    (r : CheckUserSetupResult.t) :
  checkUserTelegramSetup w username s = (Normal r, s') ->
  CheckUserSetupResult.success r = true ->
  CheckUserSetupResult.error r = None /\
  (exists uid, CheckUserSetupResult.userId r = Some uid /\ uid <> "") /\
  (exists c, CheckUserSetupResult.chatId r = Some c /\ c <> "") /\
  (exists h, CheckUserSetupResult.username r = Some h) /\
  (exists b, CheckUserSetupResult.botId r = Some b).
Proof.
  intros Hrun Hok.
  destruct (checkUserTelegramSetup_success_inv w username s s' r Hrun Hok)
    as (uid & b & c & Hauth & _ & _ & _ & _ & Hc & -> & _).
  cbn. destruct Hauth as [_ Huid].
  split; [reflexivity|]. split; [by exists uid|]. split; [by exists c|].
  split; eauto.
Qed.

Lemma setup_success_is_complete_witness :
  exists c,
    CheckUserSetupResult.chatId
      (CheckUserSetupResult.mk true None (Some "user-1") (Some "bob")
         (Some "123") (Some "aguera_bot")) = Some c /\ c <> "".
Proof.
  apply (setup_success_is_complete bob_world (Some "@bob") empty_store
           (snd (checkUserTelegramSetup bob_world (Some "@bob") empty_store))
           (CheckUserSetupResult.mk true None (Some "user-1") (Some "bob")
              (Some "123") (Some "aguera_bot")) eq_refl eq_refl).
Defined.

(** X5. A failure result of [checkUserTelegramSetup] is one of three: the
    unauthorized failure, which names neither user nor bot, when the
    session check gives no user id; or, for a signed-in user, the
    missing-handle or the bot-not-started failure, both naming the user
    and the resolved bot.  None carries a username or a chat id. *)
Theorem setup_failure_kinds
    (w : World) (username : option string) (s s' : Store)
    (r : CheckUserSetupResult.t) :
  checkUserTelegramSetup w username s = (Normal r, s') ->
  CheckUserSetupResult.success r = false ->
  CheckUserSetupResult.username r = None /\
  CheckUserSetupResult.chatId r = None /\
  ((unauthenticated w /\
    CheckUserSetupResult.error r = Some UNAUTHORIZED /\
    CheckUserSetupResult.userId r = None /\
    CheckUserSetupResult.botId r = None) \/
   (exists uid b,
      authenticated w uid /\ botIdentity w = Normal b /\
      CheckUserSetupResult.userId r = Some uid /\
      CheckUserSetupResult.botId r = Some b /\
      ((CheckUserSetupResult.error r = Some MISSING_USERNAME_ERROR /\
        truthy (js_or username (db s !! uid)) = false) \/
       (CheckUserSetupResult.error r = Some BOT_NOT_STARTED_ERROR /\
        truthy (js_or username (db s !! uid)) = true)))).
Proof.
  rewrite checkUserTelegramSetup_run. intros Hrun Hfail.
  destruct (session w) as [userId|e] eqn:Hs; [|discriminate].
  destruct (truthy userId) eqn:Huser.
  2: { simplify_eq. cbn. split; [reflexivity|]. split; [reflexivity|]. left.
       split; [by exists userId | done]. }
  destruct (session_user_truthy w userId Hs Huser) as [-> Hauth].
  revert Hrun. cbv zeta. cbn [nullish]. intros Hrun.
  destruct (botIdentity w) as [b|e] eqn:Hbot; [|discriminate].
  destruct (dbGet_error w) as [e|]; [discriminate|].
  destruct (truthy (js_or username (db s !! session_user w))) eqn:Hfinal.
  2: { simplify_eq. cbn. split; [reflexivity|]. split; [reflexivity|]. right.
       exists (session_user w), b. repeat (split; [done|]). by left. }
  destruct (chat_lookup w _) as [chatId|e]; [|discriminate].
  destruct (truthy chatId).
  2: { simplify_eq. cbn. split; [reflexivity|]. split; [reflexivity|]. right.
       exists (session_user w), b. repeat (split; [done|]). by right. }
  split_run Hrun; simplify_eq; discriminate.
Qed.

Lemma setup_failure_kinds_witness :
  CheckUserSetupResult.username
    (CheckUserSetupResult.mk false (Some MISSING_USERNAME_ERROR)
       (Some "user-1") None None (Some "aguera_bot")) = None.
Proof.
  apply (setup_failure_kinds bob_world (Some "") empty_store
           (snd (checkUserTelegramSetup bob_world (Some "") empty_store))
           (CheckUserSetupResult.mk false (Some MISSING_USERNAME_ERROR)
              (Some "user-1") None None (Some "aguera_bot")) eq_refl eq_refl).
Defined.

(* ===================================================================== *)
(** ** Further properties: the sanitized handle *)
(* ===================================================================== *)

Lemma replaceAll_has_no_at (h : string) : has_at (replaceAll "@" "" h) = false.
Proof.
  induction h as [|c rest IH]; [reflexivity|]. simpl.
  destruct (Ascii.eqb c "@") eqn:Hc; [exact IH|].
  simpl. by rewrite Hc, IH.
Qed.

Lemma replaceAll_without_at (h : string) :
  has_at h = false -> replaceAll "@" "" h = h.
Proof.
  induction h as [|c rest IH]; [reflexivity|]. simpl.
  intros Hno. apply orb_false_iff in Hno as [Hc Hrest].
  rewrite Hc. by rewrite (IH Hrest).
Qed.

Lemma replaceAll_idempotent (h : string) :
  replaceAll "@" "" (replaceAll "@" "" h) = replaceAll "@" "" h.
Proof. apply replaceAll_without_at, replaceAll_has_no_at. Qed.

Lemma replaceAll_nonempty (h : string) : replaceAll "@" "" h <> "" -> h <> "".
Proof. by intros Hne ->. Qed.

(** X6. No handle with an at-sign leaves [checkUserTelegramSetup]: neither
    as the username of a returned result, nor as the value of a write to
    the user table, whatever the override, the stored handle and the
    collaborators' answers. *)
Theorem no_at_sign_gets_out (w : World) (username : option string) (s : Store) :
  (forall r h,
     fst (checkUserTelegramSetup w username s) = Normal r ->
     CheckUserSetupResult.username r = Some h ->
     has_at h = false) /\
  (forall uid h,
     In (EvDbUpdate uid h)
        (new_events s (snd (checkUserTelegramSetup w username s))) ->
     has_at h = false).
Proof.
  split.
  - intros r h Hr Hh.
    destruct (checkUserTelegramSetup w username s) as [c s'] eqn:Hrun.
    cbn [fst] in Hr. subst c.
    destruct (CheckUserSetupResult.success r) eqn:Hok.
    + destruct (checkUserTelegramSetup_success_inv w username s s' r Hrun Hok)
        as (uid & b & c & _ & _ & _ & _ & _ & _ & -> & _).
      cbn in Hh. simplify_eq. apply replaceAll_has_no_at.
    + revert Hrun. rewrite checkUserTelegramSetup_run. intros Hrun.
      split_run Hrun; simplify_eq; discriminate.
  - intros uid h Hin.
    pose proof (checkUserTelegramSetup_calls_prefix w username s) as [k Hk].
    assert (Hin' : In (EvDbUpdate uid h)
              (EvVerifyUser :: bot_calls w ++
                 [EvDbGet (session_user w); EvFetch GetUpdates;
                  EvDbUpdate (session_user w)
                    (sanitized_handle username (db s !! session_user w))])).
    { rewrite Hk. apply in_app_iff. by left. }
    destruct Hin' as [Hv|Hin']; [discriminate|].
    apply in_app_iff in Hin' as [Hb|[Hg|[Hu|[Hw|[]]]]]; try discriminate.
    + unfold bot_calls in Hb.
      destruct (TELEGRAM_BOT_USERNAME w); [destruct Hb|].
      destruct Hb as [Hb|[]]. discriminate.
    + simplify_eq. apply replaceAll_has_no_at.
Qed.

Lemma no_at_sign_gets_out_witness :
  has_at "alice" = false.
Proof.
  apply (proj2 (no_at_sign_gets_out alice_world (Some "@al@ice@") empty_store)
           "user-1" "alice").
  vm_compute. right. right. right. left. reflexivity.
Defined.

(** X7. Only the handle without its at-signs matters: when that handle is
    not empty, an override spelled with at-signs anywhere runs exactly
    like the same override spelled without them. *)
Theorem override_spelling_is_irrelevant (w : World) (h : string) (s : Store) :
  replaceAll "@" "" h <> "" ->
  checkUserTelegramSetup w (Some h) s
    = checkUserTelegramSetup w (Some (replaceAll "@" "" h)) s.
Proof.
  intros Hne. rewrite !checkUserTelegramSetup_run.
  assert (Hh : truthy (Some h) = true)
    by (apply truthy_Some; by apply replaceAll_nonempty).
  assert (Hh' : truthy (Some (replaceAll "@" "" h)) = true) by by apply truthy_Some.
  destruct (session w) as [userId|e]; [|reflexivity].
  destruct (truthy userId); [|reflexivity].
  cbv zeta. rewrite !(js_or_truthy _ _ Hh), !(js_or_truthy _ _ Hh'), Hh, Hh'.
  cbn [nullish]. by rewrite replaceAll_idempotent.
Qed.

Lemma override_spelling_is_irrelevant_witness :
  checkUserTelegramSetup bob_world (Some "@b@ob") empty_store
  = checkUserTelegramSetup bob_world (Some "bob") empty_store.
Proof.
  apply (override_spelling_is_irrelevant bob_world "@b@ob" empty_store).
  discriminate.
Defined.

(* ===================================================================== *)
(** ** Further properties: one call after another *)
(* ===================================================================== *)

(** X8. Running [checkUserTelegramSetup] again after a success that
    returned a non-empty username, with the same override and the same
    collaborators' answers, returns the same result, stops after the
    updates request and writes nothing. *)
Theorem second_run_is_stable
    (w : World) (username : option string) (s s1 : Store)
    (r : CheckUserSetupResult.t) (h : string) :
  checkUserTelegramSetup w username s = (Normal r, s1) ->
  CheckUserSetupResult.success r = true ->
  CheckUserSetupResult.username r = Some h ->
  h <> "" ->
  exists uid,
    CheckUserSetupResult.userId r = Some uid /\
    checkUserTelegramSetup w username s1
      = (Normal r, record s1 (setup_calls w uid)).
Proof.
  intros Hrun Hok Hname Hh.
  destruct (checkUserTelegramSetup_success_inv w username s s1 r Hrun Hok)
    as (uid & b & c & Hauth & Hbot & Hdb & Hfinal & Hlookup & Hc & -> & Hstored & _).
  cbn in Hname. injection Hname as Hname.
  cbv zeta in Hstored, Hlookup. rewrite Hname in Hstored, Hlookup |- *.
  exists uid. split; [reflexivity|].
  rewrite (checkUserTelegramSetup_signed_in w username s1 uid b Hauth Hbot Hdb).
  cbv zeta. rewrite Hstored.
  assert (Hsame : replaceAll "@" "" (nullish (js_or username (Some h)) "") = h).
  { unfold sanitized_handle in Hname. unfold js_or in *.
    destruct (truthy username); [exact Hname|].
    cbn [nullish]. rewrite <- Hname. apply replaceAll_idempotent. }
  assert (Htruthy : truthy (js_or username (Some h)) = true).
  { unfold js_or in *. destruct (truthy username) eqn:Hu; [exact Hu|].
    by apply truthy_Some. }
  rewrite Htruthy, Hsame, Hlookup.
  rewrite (proj2 (truthy_Some c) Hc), (proj2 (truthy_Some h) Hh).
  by rewrite bool_decide_eq_true_2 by reflexivity.
Qed.

Lemma second_run_is_stable_witness :
  exists uid,
    Some "user-1" = Some uid /\
    checkUserTelegramSetup bob_world (Some "@bob")
      (snd (checkUserTelegramSetup bob_world (Some "@bob") empty_store))
    = (Normal (CheckUserSetupResult.mk true None (Some "user-1") (Some "bob")
                 (Some "123") (Some "aguera_bot")),
       record (snd (checkUserTelegramSetup bob_world (Some "@bob") empty_store))
         (setup_calls bob_world uid)).
Proof.
  apply (second_run_is_stable bob_world (Some "@bob") empty_store
           (snd (checkUserTelegramSetup bob_world (Some "@bob") empty_store))
           (CheckUserSetupResult.mk true None (Some "user-1") (Some "bob")
              (Some "123") (Some "aguera_bot")) "bob" eq_refl eq_refl eq_refl).
  discriminate.
Defined.

(** X9. After a successful [checkUserTelegramSetup], a later
    [checkTelegramUsername] of the same user, when the user table
    answers, returns the username of that success; unless that username
    is the empty string, in which case it returns the missing-handle
    failure. *)
Theorem lookup_after_setup
    (w w' : World) (username : option string) (s s1 : Store)
    (r : CheckUserSetupResult.t) (uid h : string) :
  checkUserTelegramSetup w username s = (Normal r, s1) ->
  CheckUserSetupResult.success r = true ->
  CheckUserSetupResult.userId r = Some uid ->
  CheckUserSetupResult.username r = Some h ->
  session w' = session w ->
  dbGet_error w' = None ->
  checkTelegramUsername w' s1 =
    (Normal (if String.eqb h ""
             then TelegramActionData.mk false (Some MISSING_USERNAME_ERROR) None None
             else TelegramActionData.mk true None None (Some h)),
     record s1 [EvVerifyUser; EvDbGet uid]).
Proof.
  intros Hrun Hok Huid Hname Hsession Hdb.
  destruct (checkUserTelegramSetup_success_inv w username s s1 r Hrun Hok)
    as (uid' & b & c & Hauth & _ & _ & _ & _ & _ & -> & Hstored & _).
  cbn in Huid, Hname. simplify_eq.
  rewrite checkTelegramUsername_run, Hsession.
  rewrite (proj1 Hauth), (authenticated_truthy w uid Hauth), Hdb.
  cbv zeta. cbn [nullish]. rewrite Hstored. unfold truthy.
  by destruct (String.eqb _ "").
Qed.

Lemma lookup_after_setup_witness :
  checkTelegramUsername alice_world
    (snd (checkUserTelegramSetup bob_world (Some "@bob") empty_store))
  = (Normal (TelegramActionData.mk true None None (Some "bob")),
     record (snd (checkUserTelegramSetup bob_world (Some "@bob") empty_store))
       [EvVerifyUser; EvDbGet "user-1"]).
Proof.
  apply (lookup_after_setup bob_world alice_world (Some "@bob") empty_store
           (snd (checkUserTelegramSetup bob_world (Some "@bob") empty_store))
           (CheckUserSetupResult.mk true None (Some "user-1") (Some "bob")
              (Some "123") (Some "aguera_bot")) "user-1" "bob");
    reflexivity.
Defined.

(** X10. [checkTelegramUsername] only reads: whatever the collaborators
    answer, it calls the session check and then at most the read of the
    user table, never the gateway and never the write, and the table is
    as before. *)
Theorem checkTelegramUsername_only_reads (w : World) (s : Store) :
  db (snd (checkTelegramUsername w s)) = db s /\
  new_events s (snd (checkTelegramUsername w s))
    `prefix_of` [EvVerifyUser; EvDbGet (session_user w)] /\
  Forall (fun e => is_gateway_call e = false /\ is_db_update e = false)
    (new_events s (snd (checkTelegramUsername w s))).
Proof.
  rewrite checkTelegramUsername_run.
  assert (H1 : Forall (fun e => is_gateway_call e = false /\ is_db_update e = false)
                 [EvVerifyUser]) by (repeat constructor).
  assert (H2 : forall uid,
            Forall (fun e => is_gateway_call e = false /\ is_db_update e = false)
              [EvVerifyUser; EvDbGet uid]) by (intros; repeat constructor).
  assert (P1 : [EvVerifyUser] `prefix_of` [EvVerifyUser; EvDbGet (session_user w)])
    by (by eexists).
  destruct (session w) as [userId|e] eqn:Hs;
    [|cbn [snd]; rewrite new_events_record; done].
  destruct (truthy userId) eqn:Ht;
    [|cbn [snd]; rewrite new_events_record; done].
  destruct (session_user_truthy w userId Hs Ht) as [-> _].
  cbv zeta. cbn [nullish].
  destruct (dbGet_error w); [|destruct (truthy (db s !! session_user w))];
    cbn [snd]; rewrite new_events_record; done.
Qed.

(* ===================================================================== *)
(** ** Further properties: the bot identifier *)
(* ===================================================================== *)

(** X11. [checkUserTelegramSetup] sends the identity request exactly when
    no bot name is configured and the caller is signed in.  A configured
    name, even the empty string, is used as it is. *)
Theorem identity_request_only_without_bot_name
    (w : World) (username : option string) (s : Store) :
  In (EvFetch GetBotInfo) (new_events s (snd (checkUserTelegramSetup w username s)))
  <-> TELEGRAM_BOT_USERNAME w = None /\ authenticated w (session_user w).
Proof.
  rewrite checkUserTelegramSetup_run.
  destruct (session w) as [userId|e] eqn:Hs.
  2: { cbn [snd]. rewrite new_events_record. split.
       - intros [H|[]]. discriminate.
       - intros [_ [Hs' _]]. congruence. }
  destruct (truthy userId) eqn:Ht.
  2: { cbn [snd]. rewrite new_events_record. split.
       - intros [H|[]]. discriminate.
       - intros [_ Hauth]. apply authenticated_truthy in Hauth.
         unfold session_user in Hauth. rewrite Hs in Hauth.
         destruct userId; [congruence | discriminate]. }
  destruct (session_user_truthy w userId Hs Ht) as [-> Hauth].
  cbv zeta. cbn [nullish]. unfold setup_calls, bot_calls.
  destruct (TELEGRAM_BOT_USERNAME w) as [b|] eqn:Hname.
  - repeat match goal with
           | |- context [match ?x with _ => _ end] => destruct x
           end; cbn [snd]; rewrite ?new_events_record, ?new_events_write;
      (split; [simpl; intuition discriminate | intros [? _]; discriminate]).
  - repeat match goal with
           | |- context [match ?x with _ => _ end] => destruct x
           end; cbn [snd]; rewrite ?new_events_record, ?new_events_write;
      (split; [done | intros _; simpl; auto]).
Qed.

Lemma identity_request_only_without_bot_name_witness :
  In (EvFetch GetBotInfo)
     (new_events empty_store
        (snd (checkUserTelegramSetup unnamed_bot_world None empty_store))).
Proof.
  apply (identity_request_only_without_bot_name unnamed_bot_world None empty_store).
  split; [reflexivity|]. split; [reflexivity | discriminate].
Defined.

(** X12. Without a configured bot name, a signed-in caller whose identity
    request is answered with a non-2xx status gets nothing further done:
    [checkUserTelegramSetup] throws "Failed to retrieve bot info" before
    the user table is read or the updates are requested, and
    [verifyTelegramSetupAction] turns that into a failure result with
    this message and no bot identifier. *)
Theorem identity_failure_stops_setup
    (w : World) (s : Store) (uid : string) (body : completion Telegram.GetMe)
    (username : option string) (vi : VerifyInput) :
  authenticated w uid ->
  TELEGRAM_BOT_USERNAME w = None ->
  getMe w = Resolved {| ok := false; json := body |} ->
  checkUserTelegramSetup w username s =
    (Abrupt (ThrownError "Failed to retrieve bot info"),
     record s [EvVerifyUser; EvFetch GetBotInfo]) /\
  verifyTelegramSetupAction w vi s =
    (Normal {| ActionResponse.success := false;
               ActionResponse.error := Some "Failed to retrieve bot info";
               ActionResponse.data :=
                 Some {| TelegramActionData.success := false;
                         TelegramActionData.error := Some "Failed to retrieve bot info";
                         TelegramActionData.botId := None;
                         TelegramActionData.username := None |} |},
     record s [EvVerifyUser; EvFetch GetBotInfo]).
Proof.
  intros Hauth Hname HgetMe.
  assert (Hsetup : forall u,
    checkUserTelegramSetup w u s =
      (Abrupt (ThrownError "Failed to retrieve bot info"),
       record s [EvVerifyUser; EvFetch GetBotInfo])).
  { intros u. rewrite checkUserTelegramSetup_run.
    rewrite (proj1 Hauth), (authenticated_truthy w uid Hauth).
    unfold botIdentity, bot_calls, received. by rewrite Hname, HgetMe. }
  split; [apply Hsetup|].
  by rewrite verifyTelegramSetupAction_run, Hsetup.
Qed.

Lemma identity_failure_stops_setup_witness :
  checkUserTelegramSetup unnamed_bot_world (Some "bob") (stored "user-1" "bob") =
    (Abrupt (ThrownError "Failed to retrieve bot info"),
     record (stored "user-1" "bob") [EvVerifyUser; EvFetch GetBotInfo]).
Proof.
  apply (identity_failure_stops_setup unnamed_bot_world (stored "user-1" "bob")
           "user-1" (Abrupt (ThrownError "Unexpected token")) (Some "bob")
           {| vi_username := Some "bob" |}).
  - split; [reflexivity | discriminate].
  - reflexivity.
  - reflexivity.
Defined.

(* ===================================================================== *)
(** ** Further properties: the two safe actions *)
(* ===================================================================== *)

Lemma checkUserTelegramSetup_log (w : World) (username : option string) (s : Store) :
  exists calls,
    log (snd (checkUserTelegramSetup w username s)) = log s ++ calls /\
    Forall (fun e => is_send_message e = false) calls.
Proof.
  destruct (checkUserTelegramSetup_store w username s) as (calls & [k Hk] & Hstore).
  exists calls. split.
  - by destruct Hstore as [->|(_ & -> & _)].
  - assert (Hfull : Forall (fun e => is_send_message e = false)
                      (full_calls w (session_user w)
                         (sanitized_handle username (db s !! session_user w)))).
    { unfold full_calls, setup_calls, bot_calls.
      destruct (TELEGRAM_BOT_USERNAME w); repeat constructor. }
    rewrite Hk in Hfull. by apply Forall_app in Hfull as [Hcalls _].
Qed.

Lemma new_events_app (s s' : Store) (calls : list Event) :
  log s' = log s ++ calls -> new_events s s' = calls.
Proof. unfold new_events. intros ->. apply drop_app_length. Qed.

(** X13. [verifyTelegramSetupAction] does what [checkUserTelegramSetup]
    does and nothing more: it leaves the same store, sends no message,
    and reports success exactly when the setup check returned success;
    its success result carries no bot identifier, username or chat id. *)
Theorem verification_mirrors_setup (w : World) (i : VerifyInput) (s : Store) :
  exists r,
    verifyTelegramSetupAction w i s
      = (Normal r, snd (checkUserTelegramSetup w (vi_username i) s)) /\
    (ActionResponse.success r = true <->
     exists setup,
       fst (checkUserTelegramSetup w (vi_username i) s) = Normal setup /\
       CheckUserSetupResult.success setup = true) /\
    (ActionResponse.success r = true ->
     r = ActionResponse.mk true None
           (Some (TelegramActionData.mk true None None None))) /\
    Forall (fun e => is_send_message e = false)
      (new_events s (snd (verifyTelegramSetupAction w i s))).
Proof.
  assert (Hquiet : Forall (fun e => is_send_message e = false)
                     (new_events s (snd (verifyTelegramSetupAction w i s)))).
  { rewrite verifyTelegramSetupAction_store.
    destruct (checkUserTelegramSetup_log w (vi_username i) s) as (calls & Hlog & Hno).
    by rewrite (new_events_app _ _ _ Hlog). }
  revert Hquiet. rewrite verifyTelegramSetupAction_run.
  destruct (checkUserTelegramSetup w (vi_username i) s) as [[setup|err] s'].
  - intros Hquiet. eexists. split; [reflexivity|]. cbn [fst].
    destruct (CheckUserSetupResult.success setup) eqn:Hok.
    + repeat split; eauto.
    + split; [|by split]. split; [discriminate|].
      intros (setup' & Heq & Hok'). congruence.
  - intros Hquiet. eexists. split; [reflexivity|].
    split; [|by split]. split; [discriminate|]. by intros (setup' & Heq & _).
Qed.

Lemma verification_mirrors_setup_witness :
  exists r,
    verifyTelegramSetupAction bob_world {| vi_username := Some "@bob" |} empty_store
      = (Normal r, snd (checkUserTelegramSetup bob_world (Some "@bob") empty_store)) /\
    ActionResponse.success r = true.
Proof.
  destruct (verification_mirrors_setup bob_world {| vi_username := Some "@bob" |}
              empty_store) as (r & Hrun & Hiff & _).
  exists r. split; [exact Hrun|]. apply Hiff. eexists. split; reflexivity.
Defined.

(** X14. [sendTelegramNotification] posts at most one message.  When it
    posts one, the bot token is configured, the setup check has returned
    success, the message goes to the chat id of that result with the text
    of the request, and the post is the last call of the run. *)
Theorem notification_posts_once (w : World) (i : NotifyInput) (s : Store) :
  length (filter (fun e => is_send_message e = true)
            (new_events s (snd (sendTelegramNotification w i s)))) <= 1 /\
  (forall chat text,
     In (EvFetch (SendMessage chat text))
        (new_events s (snd (sendTelegramNotification w i s))) ->
     text = ni_text i /\
     truthy (TELEGRAM_BOT_TOKEN w) = true /\
     exists setup s1,
       checkUserTelegramSetup w (ni_username i) s = (Normal setup, s1) /\
       CheckUserSetupResult.success setup = true /\
       chat = CheckUserSetupResult.chatId setup /\
       snd (sendTelegramNotification w i s)
         = record s1 [EvFetch (SendMessage chat text)]).
Proof.
  destruct (checkUserTelegramSetup_log w (ni_username i) s) as (calls & Hlog & Hno).
  assert (Hfilter : filter (fun e => is_send_message e = true) calls = []).
  { clear Hlog. induction Hno as [|e l He _ IH]; [reflexivity|].
    rewrite filter_cons_False; [exact IH | congruence]. }
  assert (Hnot : forall chat text, ~ In (EvFetch (SendMessage chat text)) calls).
  { intros chat text Hin. rewrite Forall_forall in Hno.
    apply list_elem_of_In, Hno in Hin. discriminate. }
  rewrite sendTelegramNotification_run.
  destruct (truthy (TELEGRAM_BOT_TOKEN w)).
  2: { cbn [snd]. rewrite new_events_same. split; [simpl; lia | intros ? ? []]. }
  destruct (checkUserTelegramSetup w (ni_username i) s) as [[setup|err] s1].
  2: { cbn [snd] in *. rewrite (new_events_app _ _ _ Hlog), Hfilter.
       split; [simpl; lia | intros chat text Hin; by destruct (Hnot chat text)]. }
  cbn [snd] in Hlog.
  destruct (CheckUserSetupResult.success setup) eqn:Hok.
  2: { cbn [snd]. rewrite (new_events_app _ _ _ Hlog), Hfilter.
       split; [simpl; lia | intros chat text Hin; by destruct (Hnot chat text)]. }
  cbv zeta.
  assert (Hnew : new_events s
            (record s1 [EvFetch (SendMessage (CheckUserSetupResult.chatId setup)
                                   (ni_text i))])
          = calls ++ [EvFetch (SendMessage (CheckUserSetupResult.chatId setup)
                                 (ni_text i))]).
  { apply new_events_app. rewrite log_record, Hlog. by rewrite app_assoc. }
  assert (Hgoal :
    length (filter (fun e => is_send_message e = true)
              (calls ++ [EvFetch (SendMessage (CheckUserSetupResult.chatId setup)
                                    (ni_text i))])) <= 1 /\
    (forall chat text,
       In (EvFetch (SendMessage chat text))
          (calls ++ [EvFetch (SendMessage (CheckUserSetupResult.chatId setup)
                                (ni_text i))]) ->
       text = ni_text i /\ true = true /\
       exists setup' s1',
         (Normal setup, s1) = (Normal setup', s1') /\
         CheckUserSetupResult.success setup' = true /\
         chat = CheckUserSetupResult.chatId setup' /\
         record s1 [EvFetch (SendMessage (CheckUserSetupResult.chatId setup)
                               (ni_text i))]
           = record s1' [EvFetch (SendMessage chat text)])).
  { split.
    - rewrite filter_app, Hfilter. simpl. lia.
    - intros chat text Hin. apply in_app_iff in Hin as [Hin|[Heq|[]]].
      + by destruct (Hnot chat text).
      + simplify_eq. split; [reflexivity|]. split; [reflexivity|].
        exists setup, s1. by repeat split. }
  destruct (sendMessage w _ _) as [err|[okb body]]; [|destruct okb];
    cbn [snd ok]; rewrite Hnew; exact Hgoal.
Qed.

Lemma notification_posts_once_witness :
  "hello" = ni_text {| ni_username := None; ni_text := "hello" |}.
Proof.
  apply (proj2 (notification_posts_once bob_world
                  {| ni_username := None; ni_text := "hello" |}
                  (stored "user-1" "bob")) (Some "123") "hello").
  vm_compute. right. right. right. left. reflexivity.
Defined.

(** X15. [sendTelegramNotification] reports success only for a message the
    gateway accepted: the bot token is configured, the setup check
    returned success, and the post to the chat id of that result, a
    non-empty string, with the text of the request, was answered with a
    2xx status.  The result carries the bot identifier of the check. *)
Theorem notification_success_means_accepted
    (w : World) (i : NotifyInput) (s s' : Store)
    (r : ActionResponse.t TelegramActionData.t) :
  sendTelegramNotification w i s = (Normal r, s') ->
  ActionResponse.success r = true ->
  truthy (TELEGRAM_BOT_TOKEN w) = true /\
  exists setup s1 c body,
    checkUserTelegramSetup w (ni_username i) s = (Normal setup, s1) /\
    CheckUserSetupResult.success setup = true /\
    CheckUserSetupResult.chatId setup = Some c /\ c <> "" /\
    sendMessage w (Some c) (ni_text i) = Resolved {| ok := true; json := body |} /\
    s' = record s1 [EvFetch (SendMessage (Some c) (ni_text i))] /\
    r = ActionResponse.mk true None
          (Some (TelegramActionData.mk true None
                   (CheckUserSetupResult.botId setup) None)).
Proof.
  rewrite sendTelegramNotification_run. intros Hrun Hok.
  destruct (truthy (TELEGRAM_BOT_TOKEN w));
    [|injection Hrun as <- <-; discriminate Hok].
  split; [reflexivity|].
  destruct (checkUserTelegramSetup w (ni_username i) s) as [[setup|err] s1] eqn:Hsetup;
    [|injection Hrun as <- <-; discriminate Hok].
  destruct (CheckUserSetupResult.success setup) eqn:Hsuccess;
    [|injection Hrun as <- <-; discriminate Hok].
  destruct (checkUserTelegramSetup_success_inv w (ni_username i) s s1 setup
              Hsetup Hsuccess)
    as (uid & b & c & _ & _ & _ & _ & _ & Hne & Hshape & _).
  assert (Hc : CheckUserSetupResult.chatId setup = Some c) by by rewrite Hshape.
  cbv zeta in Hrun. rewrite Hc in Hrun.
  destruct (sendMessage w (Some c) (ni_text i)) as [err|[okb body]] eqn:Hsend;
    [injection Hrun as <- <-; discriminate Hok|].
  destruct okb; cbn [ok] in Hrun; injection Hrun as <- <-; [|discriminate Hok].
  exists setup, s1, c, body. by repeat split.
Qed.

Lemma notification_success_means_accepted_witness :
  truthy (TELEGRAM_BOT_TOKEN bob_world) = true.
Proof.
  apply (notification_success_means_accepted bob_world
           {| ni_username := None; ni_text := "hello" |} (stored "user-1" "bob")
           (snd (sendTelegramNotification bob_world
                   {| ni_username := None; ni_text := "hello" |}
                   (stored "user-1" "bob")))
           (ActionResponse.mk true None
              (Some (TelegramActionData.mk true None (Some "aguera_bot") None))));
    reflexivity.
Defined.

(** X16. A message the gateway refuses does not undo the link: when the
    setup check succeeds and the post is answered with a non-2xx status,
    [sendTelegramNotification] returns the failure "Failed to send
    Telegram message", without bot identifier, and the handle of the
    check stays stored for the user. *)
Theorem refused_message_keeps_link
    (w : World) (i : NotifyInput) (s s1 : Store)
    (setup : CheckUserSetupResult.t) (uid h : string) (body : completion unit) :
  truthy (TELEGRAM_BOT_TOKEN w) = true ->
  checkUserTelegramSetup w (ni_username i) s = (Normal setup, s1) ->
  CheckUserSetupResult.success setup = true ->
  CheckUserSetupResult.userId setup = Some uid ->
  CheckUserSetupResult.username setup = Some h ->
  sendMessage w (CheckUserSetupResult.chatId setup) (ni_text i)
    = Resolved {| ok := false; json := body |} ->
  sendTelegramNotification w i s =
    (Normal {| ActionResponse.success := false;
               ActionResponse.error := Some "Failed to send Telegram message";
               ActionResponse.data :=
                 Some {| TelegramActionData.success := false;
                         TelegramActionData.error :=
                           Some "Failed to send Telegram message";
                         TelegramActionData.botId := None;
                         TelegramActionData.username := None |} |},
     record s1 [EvFetch (SendMessage (CheckUserSetupResult.chatId setup)
                           (ni_text i))]) /\
  db (snd (sendTelegramNotification w i s)) !! uid = Some h.
Proof.
  intros Htoken Hsetup Hok Huid Hname Hsend.
  assert (Hrun : sendTelegramNotification w i s =
    (Normal (caught (ThrownError "Failed to send Telegram message")
               "Failed to send notification"),
     record s1 [EvFetch (SendMessage (CheckUserSetupResult.chatId setup)
                           (ni_text i))])).
  { rewrite sendTelegramNotification_run, Htoken, Hsetup, Hok. cbv zeta.
    by rewrite Hsend. }
  split; [exact Hrun|]. rewrite Hrun. cbn [snd]. rewrite db_record.
  destruct (checkUserTelegramSetup_success_inv w (ni_username i) s s1 setup
              Hsetup Hok)
    as (uid' & b & c & _ & _ & _ & _ & _ & _ & -> & Hstored & _).
  cbn in Huid, Hname. by simplify_eq.
Qed.

Lemma refused_message_keeps_link_witness :
  db (snd (sendTelegramNotification refusing_world
             {| ni_username := Some "@bob"; ni_text := "hello" |} empty_store))
    !! "user-1" = Some "bob".
Proof.
  apply (refused_message_keeps_link refusing_world
           {| ni_username := Some "@bob"; ni_text := "hello" |} empty_store
           (snd (checkUserTelegramSetup refusing_world (Some "@bob") empty_store))
           (CheckUserSetupResult.mk true None (Some "user-1") (Some "bob")
              (Some "123") (Some "aguera_bot"))
           "user-1" "bob" (Normal tt));
    reflexivity.
Defined.

(** X17. With a configured bot token, [sendTelegramNotification] fails the
    way [verifyTelegramSetupAction] does: whenever the verification of
    the same override returns a failure, and the value thrown, if one was
    thrown, is an Error, the notification returns the same result and
    leaves the same store. *)
Theorem notification_fails_like_verification
    (w : World) (i : NotifyInput) (s s' : Store)
    (r : ActionResponse.t TelegramActionData.t) :
  truthy (TELEGRAM_BOT_TOKEN w) = true ->
  fst (checkUserTelegramSetup w (ni_username i) s) <> Abrupt ThrownOther ->
  verifyTelegramSetupAction w {| vi_username := ni_username i |} s = (Normal r, s') ->
  ActionResponse.success r = false ->
  sendTelegramNotification w i s = (Normal r, s').
Proof.
  intros Htoken Herror.
  rewrite verifyTelegramSetupAction_run, sendTelegramNotification_run, Htoken.
  cbn [vi_username].
  destruct (checkUserTelegramSetup w (ni_username i) s) as [[setup|err] s1].
  - destruct (CheckUserSetupResult.success setup).
    + intros Hrun Hfail. injection Hrun as <- <-. discriminate Hfail.
    + by intros Hrun _.
  - intros Hrun _. destruct err as [m|]; [exact Hrun|].
    by destruct Herror.
Qed.

Lemma notification_fails_like_verification_witness :
  sendTelegramNotification bob_world
    {| ni_username := Some "@carol"; ni_text := "hello" |} (stored "user-1" "bob")
  = (Normal (forwarded (CheckUserSetupResult.mk false (Some BOT_NOT_STARTED_ERROR)
                          (Some "user-1") None None (Some "aguera_bot"))),
     record (stored "user-1" "bob") (setup_calls bob_world "user-1")).
Proof.
  apply (notification_fails_like_verification bob_world
           {| ni_username := Some "@carol"; ni_text := "hello" |}
           (stored "user-1" "bob")).
  - reflexivity.
  - discriminate.
  - reflexivity.
  - reflexivity.
Defined.

(* ===================================================================== *)
(** ** Further properties: the scan over several batches of updates *)
(* ===================================================================== *)

Lemma find_over_app {A : Type} (f : A -> bool) (l1 l2 : list A) :
  find f (l1 ++ l2) =
    match find f l1 with
    | Some x => Some x
    | None => find f l2
    end.
Proof.
  induction l1 as [|x l1 IH]; [reflexivity|]. simpl.
  by destruct (f x).
Qed.

Lemma scan_app (username : string) (us1 us2 : list Telegram.Update) :
  scan username (us1 ++ us2) =
    match scan username us1 with
    | Normal None => scan username us2
    | found => found
    end.
Proof.
  unfold scan. rewrite find_over_app.
  destruct (find (from_username username) us1) as [c|] eqn:Hfind; [|reflexivity].
  apply find_some in Hfind as [_ Hc]. apply from_username_spec in Hc.
  destruct (sender_has_message _ _ Hc) as [m Hm].
  unfold chat_id_of. by rewrite Hm.
Qed.

(** X18. Earlier updates win: when the gateway's update list is one batch
    followed by another, [getChatIdByUsername] returns what it returns on
    the first batch alone if that is a chat id, and otherwise what it
    returns on the second batch alone. *)
Theorem lookup_over_two_batches
    (w1 w2 w : World) (username : string) (s : Store)
    (us1 us2 : list Telegram.Update) :
  updates_response w1 true us1 ->
  updates_response w2 true us2 ->
  updates_response w true (us1 ++ us2) ->
  fst (getChatIdByUsername w username s) =
    match fst (getChatIdByUsername w1 username s) with
    | Normal (Some c) => Normal (Some c)
    | _ => fst (getChatIdByUsername w2 username s)
    end.
Proof.
  intros H1 H2 H12. rewrite !getChatIdByUsername_run. cbn [fst].
  rewrite (chat_lookup_response w1 username true us1 H1).
  rewrite (chat_lookup_response w2 username true us2 H2).
  rewrite (chat_lookup_response w username true _ H12).
  rewrite scan_app.
  destruct (scan_returns username us1) as [[c|] ->]; reflexivity.
Qed.

Lemma lookup_over_two_batches_witness :
  fst (getChatIdByUsername
         (sample_world None (Normal None)
            (updates_ok ([message_from "alice" "77"] ++ [message_from "bob" "123"])))
         "bob" empty_store)
  = Normal (Some "123").
Proof.
  apply (lookup_over_two_batches alice_world bob_world
           (sample_world None (Normal None)
              (updates_ok ([message_from "alice" "77"] ++ [message_from "bob" "123"])))
           "bob" empty_store [message_from "alice" "77"] [message_from "bob" "123"]);
    reflexivity.
Defined.
